(** * River water quality dashboard: a shallow embedding of [dashboard.py]

    The script has two parts: the loader [load_data], which reads two CSV
    files per river through pandas, and two Dash callbacks,
    [update_parameter_options] and [update_content].

    Python values are modelled as follows.
    - [str] is [string]; [str.lower] and [in] are written out below.
    - A [dict] is an association list in insertion order; a failed lookup
      raises [KeyError].
    - Exceptions are the constructors of [exn]; a computation returns
      [Ok v] or [Raise e].
    - Printing and opening files are recorded in an event log that every
      computation carries (the type [M]).
    - The file system is a read-only function from paths to [FileEntry].
    - pandas' cell parsers, its resampler and plotly's figure builders are
      library code: they are the variables of [Section Dashboard]. *)

From Stdlib Require Import String Ascii List Bool Arith NArith Lia DecimalString.
From Stdlib Require Import Permutation.
Import ListNotations.
Open Scope string_scope.
Open Scope list_scope.

(** ** Strings *)

(** [str.lower] on the ASCII range. *)
Definition lower_ascii (c : ascii) : ascii :=
  let n := nat_of_ascii c in
  if Nat.leb 65 n && Nat.leb n 90 then ascii_of_nat (n + 32) else c.

Fixpoint lower (s : string) : string :=
  match s with
  | EmptyString => EmptyString
  | String c rest => String (lower_ascii c) (lower rest)
  end.

(** [needle in hay] on strings. *)
Fixpoint contains (needle hay : string) : bool :=
  match hay with
  | EmptyString => prefix needle hay
  | String _ rest => prefix needle hay || contains needle rest
  end.

(** The test of line 37: ['time' in col.lower()]. *)
Definition time_like (col : string) : bool := contains "time" (lower col).

Definition str_of_nat (n : nat) : string :=
  NilEmpty.string_of_uint (Nat.to_uint n).

Definition mem (x : string) (l : list string) : bool :=
  existsb (String.eqb x) l.

(** ** Exceptions, results and the effect log *)

Inductive exn : Type :=
| KeyError (key : string)
| ValueError (msg : string)
| AttributeError (msg : string)
| FileNotFoundError (filename : string)
| ParserError (msg : string).

(** [str(e)]; for [FileNotFoundError] this is the text CPython builds
    from errno 2 and the file name. *)
Definition str_exn (e : exn) : string :=
  match e with
  | KeyError k => ("'" ++ k ++ "'")%string
  | ValueError m => m
  | AttributeError m => m
  | FileNotFoundError p =>
      ("[Errno 2] No such file or directory: '" ++ p ++ "'")%string
  | ParserError m => m
  end.

Inductive Result (A : Type) : Type :=
| Ok (a : A)
| Raise (e : exn).
Arguments Ok {A} a.
Arguments Raise {A} e.

Inductive Event : Type :=
| Open (path : string)
| Print (line : string).

(** A computation: the events it performed, in order, and its outcome. *)
Definition M (A : Type) : Type := (list Event * Result A)%type.

Definition ret {A} (a : A) : M A := ([], Ok a).
Definition raise {A} (e : exn) : M A := ([], Raise e).
Definition emit (ev : Event) : M unit := ([ev], Ok tt).
Definition lift {A} (r : Result A) : M A := ([], r).

Definition bind {A B} (m : M A) (f : A -> M B) : M B :=
  match m with
  | (l, Ok a) => let (l', r) := f a in (l ++ l', r)
  | (l, Raise e) => (l, Raise e)
  end.

Notation "'let*' x ':=' c1 'in' c2" := (bind c1 (fun x => c2))
  (at level 10, x name, c1 at level 100, c2 at level 200).
Notation "c1 ;; c2" := (bind c1 (fun _ => c2))
  (at level 61, right associativity).

(** Sequencing of results without events. *)
Definition and_then {A B} (r : Result A) (f : A -> Result B) : Result B :=
  match r with
  | Ok a => f a
  | Raise e => Raise e
  end.

Notation "'let+' x ':=' r 'in' k" := (and_then r (fun x => k))
  (at level 10, x name, r at level 100, k at level 200).

Definition events {A} (m : M A) : list Event := fst m.
Definition outcome {A} (m : M A) : Result A := snd m.

(** [try: body / except FileNotFoundError as e: handler e]. *)
Definition try_except_FileNotFoundError {A} (body : M A) (handler : exn -> M A) : M A :=
  match body with
  | (l, Raise (FileNotFoundError p)) =>
      let (l', r) := handler (FileNotFoundError p) in (l ++ l', r)
  | other => other
  end.

(** ** Dictionaries *)

Definition dict (V : Type) : Type := list (string * V).

Fixpoint lookup {V} (d : dict V) (k : string) : option V :=
  match d with
  | [] => None
  | (k', v) :: rest => if String.eqb k' k then Some v else lookup rest k
  end.

(** [d[k]]. *)
Definition getitem {V} (d : dict V) (k : string) : Result V :=
  match lookup d k with
  | Some v => Ok v
  | None => Raise (KeyError k)
  end.

Definition keys {V} (d : dict V) : list string := map fst d.

(** ** The declared schema (lines 8-21) *)

Definition custom_variables : dict (dict (list string)) :=
  [ ("KualaSG",
      [ ("raw", ["time"; "PH_Sensor"; "ORP_Sensor"; "TR_Sensor"; "CT_Sensor";
                 "TDS_Sensor"; "NH_SEnsor"; "DO_Sensor"; "COD_Sensor"; "BOD_Sensor"]);
        ("cleaned", ["Timestamp"; "PH_Sensor"; "ORP_Sensor"; "TR_Sensor";
                     "CT_Sensor"; "DO_Sensor"]) ]);
    ("Bilut",
      [ ("raw", ["time"; "PH_Sensor"; "ORP_Sensor"; "CT_Sensor"; "TDS_Sensor";
                 "NH_sensor"; "COD_Sensor"; "DO_Sensor"; "BOD_Sensor"; "TR_Sensor"]);
        ("cleaned", ["Timestamp"; "PH_Sensor"; "ORP_Sensor"; "CT_Sensor";
                     "TDS_Sensor"; "NH_sensor"; "TR_Sensor"]) ]);
    ("Kechau",
      [ ("raw", ["time"; "Ph_Sensor"; "ORP_Sensor"; "CT_Sensor"; "TDS_Sensor";
                 "NH_Sensor"; "DO_Sensor"; "TR_Sensor"; "BOD_Sensor"; "COD_Sensor"]);
        ("cleaned", ["Timestamp"; "ORP_Sensor"; "CT_Sensor"; "TDS_Sensor";
                     "NH_Sensor"]) ]) ].

(** [custom_variables[river][kind]]. *)
Definition declared (river kind : string) : Result (list string) :=
  match getitem custom_variables river with
  | Ok schema => getitem schema kind
  | Raise e => Raise e
  end.

(** The rivers of the declaration and the two dataset kinds. *)
Definition declared_rivers : list string := keys custom_variables.
Definition dataset_kinds : list string := ["raw"; "cleaned"].

(** ** The parameter dropdown (lines 136-142) *)

Record DropdownOption : Type := { label : string; value : string }.

Definition update_parameter_options (selected_river selected_dataset : string)
  : Result (list DropdownOption) :=
  match declared selected_river selected_dataset with
  | Ok cols =>
      let parameters := tl cols in
      Ok (map (fun param => {| label := param; value := param |}) parameters)
  | Raise e => Raise e
  end.

(** ** The file system *)

(** What [pd.read_csv] finds at a path: nothing, a file its tokenizer
    rejects with the exception [e], or a header line and records.  The
    header is as pandas names the columns (it makes repeated names
    distinct); a record shorter than the header is padded with empty
    fields. *)
Inductive FileEntry : Type :=
| NoSuchFile
| Unreadable (e : exn)
| Csv (header : list string) (rows : list (list string)).

Definition FileSystem : Type := string -> FileEntry.

Section Dashboard.

(** pandas' [float64] and [datetime64] values. *)
Variables F T : Type.

(** A cell: a text field as read, a number or NaN, a time stamp or NaT,
    or a position of a default [RangeIndex]. *)
Inductive Value : Type :=
| Text (s : string)
| Num (x : option F)
| Time (t : option T)
| Pos (i : nat).

Inductive Index : Type :=
| RangeIndex (n : nat)
| LabelIndex (name : string) (labels : list Value).

Record DataFrame : Type :=
  { index : Index; columns_data : dict (list Value) }.

(** [df.columns] and [len(df)]. *)
Definition columns (df : DataFrame) : list string := keys (columns_data df).

Definition nrows (df : DataFrame) : nat :=
  match index df with
  | RangeIndex n => n
  | LabelIndex _ labels => List.length labels
  end.

(** Library code the script calls.  The two parsers give the element a
    cell becomes under [errors='coerce'] ([None] where parsing fails);
    they see the whole column because pandas infers one format or dtype
    per column. *)
Variable to_datetime_cell : list Value -> Value -> option T.
Variable to_numeric_cell : list Value -> Value -> option F.
(** [df.resample(rule).mean(numeric_only=True)]; pandas may raise. *)
Variable resample_mean : string -> DataFrame -> Result DataFrame.
(** [px.histogram(df, x=...)] and [px.line(df, x=..., y=...)]. *)
Variable Figure : Type.
Variable px_histogram : option DataFrame -> option string -> Result Figure.
Variable px_line : DataFrame -> Index -> option string -> Result Figure.

(** *** pandas operations used by the loader *)

Definition field (j : nat) (row : list string) : Value := Text (nth j row "").

(** The columns of the file that [usecols] names, in the file's order. *)
Fixpoint select_columns (usecols : list string) (j : nat)
         (header : list string) (rows : list (list string)) : dict (list Value) :=
  match header with
  | [] => []
  | name :: rest =>
      let others := select_columns usecols (S j) rest rows in
      if mem name usecols then (name, map (field j) rows) :: others else others
  end.

(** Every name of [usecols] is a column of the file. *)
Definition usecols_present (header usecols : list string) : bool :=
  forallb (fun c => mem c header) usecols.

(** [pd.read_csv(path, usecols=usecols)]. *)
Definition read_csv (fs : FileSystem) (path : string) (usecols : list string)
  : M DataFrame :=
  emit (Open path) ;;
  match fs path with
  | NoSuchFile => raise (FileNotFoundError path)
  | Unreadable e => raise e
  | Csv header rows =>
      if usecols_present header usecols
      then ret {| index := RangeIndex (List.length rows);
                  columns_data := select_columns usecols 0 header rows |}
      else raise (ValueError "Usecols do not match columns")
  end.

(** [df.rename(columns={col: "Timestamp" for col in df.columns
                        if 'time' in col.lower()}, inplace=True)]. *)
Definition rename_time (df : DataFrame) : DataFrame :=
  {| index := index df;
     columns_data :=
       map (fun cv => (if time_like (fst cv) then "Timestamp" else fst cv, snd cv))
           (columns_data df) |}.

(** [df[col]] on a frame with distinct column names, which is what
    [read_csv] yields: the column of that name.  (On a repeated name pandas
    returns a frame, not a column; the statements below that depend on the
    difference assume distinct names.) *)
Definition frame_get (df : DataFrame) (col : string) : Result (list Value) :=
  getitem (columns_data df) col.

Fixpoint assign (col : string) (v : list Value) (d : dict (list Value))
  : dict (list Value) :=
  match d with
  | [] => [(col, v)]
  | (c, old) :: rest =>
      if String.eqb c col then (col, v) :: rest else (c, old) :: assign col v rest
  end.

(** [df[col] = v]. *)
Definition frame_set (df : DataFrame) (col : string) (v : list Value) : DataFrame :=
  {| index := index df; columns_data := assign col v (columns_data df) |}.

(** [pd.to_datetime(column, errors='coerce')]. *)
Definition to_datetime (column : list Value) : list Value :=
  map (fun v => Time (to_datetime_cell column v)) column.

(** [pd.to_numeric(column, errors='coerce')]. *)
Definition to_numeric (column : list Value) : list Value :=
  map (fun v => Num (to_numeric_cell column v)) column.

(** [df["Timestamp"] = pd.to_datetime(df["Timestamp"], errors='coerce')]. *)
Definition coerce_timestamp (df : DataFrame) : Result DataFrame :=
  match frame_get df "Timestamp" with
  | Ok column => Ok (frame_set df "Timestamp" (to_datetime column))
  | Raise e => Raise e
  end.

(** The inner loop of lines 44-46, over the column names [cols]. *)
Fixpoint coerce_numeric (cols : list string) (df : DataFrame) : Result DataFrame :=
  match cols with
  | [] => Ok df
  | col :: rest =>
      if negb (String.eqb col "Timestamp") then
        match frame_get df col with
        | Ok column => coerce_numeric rest (frame_set df col (to_numeric column))
        | Raise e => Raise e
        end
      else coerce_numeric rest df
  end.

(** The columns other than [col]. *)
Definition drop_column (col : string) (d : dict (list Value)) : dict (list Value) :=
  filter (fun cv => negb (String.eqb (fst cv) col)) d.

(** [df.set_index(col, inplace=True)]. *)
Definition set_index (col : string) (df : DataFrame) : Result DataFrame :=
  match frame_get df col with
  | Ok labels =>
      Ok {| index := LabelIndex col labels;
            columns_data := drop_column col (columns_data df) |}
  | Raise e => Raise e
  end.

(** [df.reset_index()]: an unnamed index comes back as the column
    ["index"], or ["level_0"] when a column ["index"] exists. *)
Definition reset_index (df : DataFrame) : Result DataFrame :=
  match index df with
  | RangeIndex n =>
      let name := if mem "index" (columns df) then "level_0" else "index" in
      if mem name (columns df)
      then Raise (ValueError ("cannot insert " ++ name ++ ", already exists")%string)
      else Ok {| index := RangeIndex n;
                 columns_data := (name, map Pos (seq 0 n)) :: columns_data df |}
  | LabelIndex name labels =>
      if mem name (columns df)
      then Raise (ValueError ("cannot insert " ++ name ++ ", already exists")%string)
      else Ok {| index := RangeIndex (List.length labels);
                 columns_data := (name, labels) :: columns_data df |}
  end.

(** [df.to_dict("records")]: one dictionary per row. *)
Definition to_dict_records (df : DataFrame) : list (dict Value) :=
  map (fun i => map (fun cv => (fst cv, nth i (snd cv) (Num None))) (columns_data df))
      (seq 0 (nrows df)).

(** *** The loader (lines 24-60) *)

(** A returned tuple; [None] is Python's [None]. *)
Definition Tables : Type := list (option DataFrame).

Definition read_both (fs : FileSystem) (river : string) : M (DataFrame * DataFrame) :=
  let raw_file_path := (river ++ "_Raw.csv")%string in
  let cleaned_file_path := (river ++ "_Cleaned.csv")%string in
  let* raw_cols := lift (declared river "raw") in
  let* df_raw := read_csv fs raw_file_path raw_cols in
  let* cleaned_cols := lift (declared river "cleaned") in
  let* df_cleaned := read_csv fs cleaned_file_path cleaned_cols in
  ret (df_raw, df_cleaned).

(** Lines 28-34: both reads under one [try]; the handler reports and
    makes the function return [(None, None)]. *)
Definition try_read (fs : FileSystem) (river : string)
  : M (DataFrame * DataFrame + Tables) :=
  try_except_FileNotFoundError
    (let* both := read_both fs river in ret (inl both))
    (fun e =>
       emit (Print ("Error: " ++ str_exn e)%string) ;;
       emit (Print "Ensure CSV files are available in the correct directory!") ;;
       ret (inr [None; None])).

(** Lines 52-60: the six resamplings and the returned tuple. *)
Definition resample_all (df_raw df_cleaned : DataFrame) : Result Tables :=
  let+ df_raw_daily := resample_mean "D" df_raw in
  let+ df_raw_weekly := resample_mean "W" df_raw in
  let+ df_raw_monthly := resample_mean "ME" df_raw in
  let+ df_cleaned_daily := resample_mean "D" df_cleaned in
  let+ df_cleaned_weekly := resample_mean "W" df_cleaned in
  let+ df_cleaned_monthly := resample_mean "ME" df_cleaned in
  Ok [Some df_raw; Some df_cleaned;
      Some df_raw_daily; Some df_raw_weekly; Some df_raw_monthly;
      Some df_cleaned_daily; Some df_cleaned_weekly; Some df_cleaned_monthly].

(** Lines 36-60: renaming, coercion, indexing and resampling. *)
Definition prepare (df_raw df_cleaned : DataFrame) : M Tables :=
  let df_raw := rename_time df_raw in
  let* df_raw := lift (coerce_timestamp df_raw) in
  let* df_cleaned := lift (coerce_timestamp df_cleaned) in
  let* df_raw := lift (coerce_numeric (columns df_raw) df_raw) in
  let* df_cleaned := lift (coerce_numeric (columns df_cleaned) df_cleaned) in
  let* df_raw := lift (set_index "Timestamp" df_raw) in
  let* df_cleaned := lift (set_index "Timestamp" df_cleaned) in
  lift (resample_all df_raw df_cleaned).

Definition load_data (fs : FileSystem) (river : string) : M Tables :=
  let* loaded := try_read fs river in
  match loaded with
  | inr early => ret early
  | inl (df_raw, df_cleaned) => prepare df_raw df_cleaned
  end.

(** The frame the loader makes of a frame whose time column holds [tcol]
    and whose other columns are [others]: indexed by the parsed time
    stamps, every other column coerced to numbers. *)
Definition coerced (tcol : list Value) (others : dict (list Value)) : DataFrame :=
  {| index := LabelIndex "Timestamp" (to_datetime tcol);
     columns_data := map (fun cv => (fst cv, to_numeric (snd cv))) others |}.

(** [df] holds the records [rows] of a file with header [header], coerced:
    as many rows as records; the index holds the parsed time column
    [tname], the column [c] holds the parsed fields of the file's column
    [c]; a field whose parser fails is NaT, respectively NaN. *)
Definition coerced_from (tname : string) (usecols header : list string)
           (rows : list (list string)) (df : DataFrame) : Prop :=
  nrows df = List.length rows /\
  (forall c cells, lookup (columns_data df) c = Some cells ->
                   List.length cells = List.length rows) /\
  (forall j i row,
      nth_error header j = Some tname -> nth_error rows i = Some row ->
      exists labels,
        index df = LabelIndex "Timestamp" labels /\
        nth_error labels i
        = Some (Time (to_datetime_cell (map (field j) rows) (field j row))) /\
        (to_datetime_cell (map (field j) rows) (field j row) = None ->
         nth_error labels i = Some (Time None))) /\
  (forall j c i row,
      nth_error header j = Some c -> c <> tname -> mem c usecols = true ->
      nth_error rows i = Some row ->
      exists cells,
        lookup (columns_data df) c = Some cells /\
        nth_error cells i
        = Some (Num (to_numeric_cell (map (field j) rows) (field j row))) /\
        (to_numeric_cell (map (field j) rows) (field j row) = None ->
         nth_error cells i = Some (Num None))).

(** The granularity selector values with the resampling rule of each. *)
Definition granularities : list (string * string) :=
  [("daily", "D"); ("weekly", "W"); ("monthly", "ME")].

(** *** The display callback (lines 145-167) *)

Record Eight : Type :=
  { df_raw : option DataFrame; df_cleaned : option DataFrame;
    df_raw_daily : option DataFrame; df_raw_weekly : option DataFrame;
    df_raw_monthly : option DataFrame; df_cleaned_daily : option DataFrame;
    df_cleaned_weekly : option DataFrame; df_cleaned_monthly : option DataFrame }.

(** [a, b, c, d, e, f, g, h = t]. *)
Definition unpack8 (t : Tables) : Result Eight :=
  match t with
  | [a; b; c; d; e; f; g; h] =>
      Ok {| df_raw := a; df_cleaned := b; df_raw_daily := c; df_raw_weekly := d;
            df_raw_monthly := e; df_cleaned_daily := f; df_cleaned_weekly := g;
            df_cleaned_monthly := h |}
  | _ =>
      if Nat.ltb (List.length t) 8
      then Raise (ValueError ("not enough values to unpack (expected 8, got "
                              ++ str_of_nat (List.length t) ++ ")")%string)
      else Raise (ValueError "too many values to unpack (expected 8)")
  end.

(** What unpacking the pair [(None, None)] into eight names raises. *)
Definition unpack_error : exn :=
  ValueError "not enough values to unpack (expected 8, got 2)".

(** The module-level load of lines 63-64. *)
Definition selected_river : string := "KualaSG".

Definition module_init (fs : FileSystem) : M Eight :=
  let* t := load_data fs selected_river in lift (unpack8 t).

Record Column : Type := { name : string; id : string }.

Inductive Component : Type :=
| Div (children : string)
| DataTable (data : list (dict Value)) (cols : list Column)
| Graph (figure : Figure).

(** An attribute access [obj.attr] on a value that may be [None]. *)
Definition attr (obj : option DataFrame) (a : string) : Result DataFrame :=
  match obj with
  | Some df => Ok df
  | None => Raise (AttributeError
                     ("'NoneType' object has no attribute '" ++ a ++ "'")%string)
  end.

Definition placeholder : string := "Click 'Display Data' to show the results.".

Definition update_content (fs : FileSystem) (n_clicks : nat)
           (selected_river selected_dataset selected_visualization
              selected_time_range : string)
           (selected_parameter : option string) : M (option Component) :=
  if Nat.eqb n_clicks 0 then ret (Some (Div placeholder))
  else
    let* t := load_data fs selected_river in
    let* u := lift (unpack8 t) in
    let df := if String.eqb selected_dataset "raw" then df_raw u else df_cleaned u in
    let* df_trend := lift (getitem [("daily", df_raw_daily u);
                                    ("weekly", df_raw_weekly u);
                                    ("monthly", df_raw_monthly u)]
                                   selected_time_range) in
    if String.eqb selected_visualization "table" then
      let* d := lift (attr df "reset_index") in
      let* flat := lift (reset_index d) in
      let* d' := lift (attr df "columns") in
      ret (Some (DataTable (to_dict_records flat)
                           (map (fun i => {| name := i; id := i |}) (columns d'))))
    else if String.eqb selected_visualization "histogram" then
      let* fig := lift (px_histogram df selected_parameter) in
      ret (Some (Graph fig))
    else if String.eqb selected_visualization "trend" then
      let* d := lift (attr df_trend "index") in
      let* fig := lift (px_line d (index d) selected_parameter) in
      ret (Some (Graph fig))
    else ret None.

End Dashboard.

Arguments Text {F T} s.
Arguments Num {F T} x.
Arguments Time {F T} t.
Arguments Pos {F T} i.
Arguments RangeIndex {F T} n.
Arguments LabelIndex {F T} name labels.
Arguments index {F T} d.
Arguments columns_data {F T} d.
Arguments columns {F T} df.
Arguments nrows {F T} df.
Arguments Div {F T Figure} children.
Arguments DataTable {F T Figure} data cols.
Arguments Graph {F T Figure} figure.

(** ** A small instance of the library parameters

    Numbers and time stamps are natural numbers written in decimal; a
    field that is not a decimal numeral fails to parse.  The instance is
    used to run the embedding on concrete files. *)
Module Sample.

Definition digit (c : ascii) : option N :=
  let n := N_of_ascii c in
  if N.leb 48 n && N.leb n 57 then Some (n - 48)%N else None.

Fixpoint parse_digits (acc : N) (s : string) : option N :=
  match s with
  | EmptyString => Some acc
  | String c rest =>
      match digit c with
      | Some d => parse_digits (10 * acc + d)%N rest
      | None => None
      end
  end.

Definition parse_number (s : string) : option N :=
  match s with
  | EmptyString => None
  | _ => parse_digits 0 s
  end.

Definition V : Type := Value N N.
Definition Frame : Type := DataFrame N N.

Definition to_datetime_cell (_ : list V) (v : V) : option N :=
  match v with
  | Text s => parse_number s
  | Time t => t
  | _ => None
  end.

Definition to_numeric_cell (_ : list V) (v : V) : option N :=
  match v with
  | Text s => parse_number s
  | Num x => x
  | _ => None
  end.

(** The resampler of the instance never raises; it keeps the frame and
    names its index after the rule. *)
Definition resample_mean (rule : string) (df : Frame) : Result Frame :=
  Ok {| index := match index df with
                 | RangeIndex n => RangeIndex n
                 | LabelIndex _ labels => LabelIndex rule labels
                 end;
        columns_data := columns_data df |}.

(** A figure is the call that builds it. *)
Inductive Fig : Type :=
| Histogram (df : option Frame) (x : option string)
| Line (df : Frame) (x : Index N N) (y : option string).

Definition px_histogram (df : option Frame) (x : option string) : Result Fig :=
  Ok (Histogram df x).
Definition px_line (df : Frame) (x : Index N N) (y : option string) : Result Fig :=
  Ok (Line df x y).

Definition load (fs : FileSystem) (river : string) : M (Tables N N) :=
  load_data N N to_datetime_cell to_numeric_cell resample_mean fs river.

Definition display (fs : FileSystem) (n_clicks : nat)
           (river dataset visualization time_range : string)
           (parameter : option string) : M (option (Component N N Fig)) :=
  update_content N N to_datetime_cell to_numeric_cell resample_mean
                 Fig px_histogram px_line
                 fs n_clicks river dataset visualization time_range parameter.

(** Files of the instance. *)
Definition kuala_raw_header : list string :=
  ["time"; "PH_Sensor"; "ORP_Sensor"; "TR_Sensor"; "CT_Sensor";
   "TDS_Sensor"; "NH_SEnsor"; "DO_Sensor"; "COD_Sensor"; "BOD_Sensor"].

Definition kuala_raw_rows : list (list string) :=
  [ ["20240101"; "7"; "250"; "12"; "30"; "110"; "1"; "6"; "40"; "3"];
    ["not a date"; "8"; "n/a"; "14"; "31"; "120"; "2"; "5"; "41"; "4"] ].

Definition kuala_cleaned_header : list string :=
  ["Timestamp"; "PH_Sensor"; "ORP_Sensor"; "TR_Sensor"; "CT_Sensor"; "DO_Sensor"].

Definition kuala_cleaned_rows : list (list string) :=
  [ ["20240101"; "7"; "250"; "12"; "30"; "6"] ].

Definition kuala_raw : FileEntry := Csv kuala_raw_header kuala_raw_rows.
Definition kuala_cleaned : FileEntry := Csv kuala_cleaned_header kuala_cleaned_rows.

Definition kechau_raw_header : list string :=
  ["time"; "Ph_Sensor"; "ORP_Sensor"; "CT_Sensor"; "TDS_Sensor";
   "NH_Sensor"; "DO_Sensor"; "TR_Sensor"; "BOD_Sensor"; "COD_Sensor"].

Definition kechau_raw_rows : list (list string) :=
  [ ["20240101"; "7"; "250"; "30"; "110"; "1"; "6"; "12"; "3"; "40"] ].

Definition kechau_raw : FileEntry := Csv kechau_raw_header kechau_raw_rows.

(** Both KualaSG files and the raw Kechau file exist; nothing else does:
    [Kechau_Cleaned.csv] and both Bilut files are missing. *)
Definition fs : FileSystem := fun path =>
  if String.eqb path "KualaSG_Raw.csv" then kuala_raw
  else if String.eqb path "KualaSG_Cleaned.csv" then kuala_cleaned
  else if String.eqb path "Kechau_Raw.csv" then kechau_raw
  else NoSuchFile.

(** No file at all. *)
Definition empty_fs : FileSystem := fun _ => NoSuchFile.

(** [KualaSG_Raw.csv] with two of the ten declared columns only. *)
Definition fs_short : FileSystem := fun path =>
  if String.eqb path "KualaSG_Raw.csv" then Csv ["time"; "PH_Sensor"] [["20240101"; "7"]]
  else fs path.

(** [KualaSG_Raw.csv] that the tokenizer rejects. *)
Definition fs_broken : FileSystem := fun path =>
  if String.eqb path "KualaSG_Raw.csv"
  then Unreadable (ParserError "Error tokenizing data")
  else fs path.

(** The files of [fs] and a raw Bilut file. *)
Definition fs_more : FileSystem := fun path =>
  if String.eqb path "Bilut_Raw.csv" then kechau_raw else fs path.

(** A frame with a time column and one sensor column. *)
Definition small_frame : Frame :=
  {| index := RangeIndex 2;
     columns_data := [ ("PH_Sensor", [Num (Some 7%N); Num None]);
                       ("Timestamp", [Time (Some 20240101%N); Time None]) ] |}.

End Sample.

(** ** The layout (lines 69-133)

    The five dropdowns and the button, as the data the callbacks depend
    on: the identifier, the options, the initial value and [clearable]. *)

Record Dropdown : Type :=
  { dd_id : string;
    dd_options : list DropdownOption;
    dd_value : option string;
    dd_clearable : bool }.

Definition sungai_selector : Dropdown :=
  {| dd_id := "sungai_selector";
     dd_options := map (fun river => {| label := river; value := river |})
                       (keys custom_variables);
     dd_value := Some selected_river;
     dd_clearable := false |}.

Definition dataset_selector : Dropdown :=
  {| dd_id := "dataset_selector";
     dd_options := [ {| label := "Raw Data"; value := "raw" |};
                     {| label := "Cleaned Data"; value := "cleaned" |} ];
     dd_value := Some "raw";
     dd_clearable := false |}.

Definition visualization_selector : Dropdown :=
  {| dd_id := "visualization_selector";
     dd_options :=
       [ {| label := "Show Data Table"; value := "table" |};
         {| label := "Variable Distribution (Histogram)"; value := "histogram" |};
         {| label := "Trend Analysis (Daily/Weekly/Monthly)"; value := "trend" |} ];
     dd_value := Some "table";
     dd_clearable := false |}.

Definition parameter_selector : Dropdown :=
  {| dd_id := "parameter_selector";
     dd_options := [];
     dd_value := None;
     dd_clearable := false |}.

Definition time_range_selector : Dropdown :=
  {| dd_id := "time_range_selector";
     dd_options := [ {| label := "Daily"; value := "daily" |};
                     {| label := "Weekly"; value := "weekly" |};
                     {| label := "Monthly"; value := "monthly" |} ];
     dd_value := Some "daily";
     dd_clearable := false |}.

(** [html.Button("Display Data", id="display_button", n_clicks=0)]. *)
Definition display_button_n_clicks : nat := 0.

(** The values a dropdown lets the user select. *)
Definition choices (d : Dropdown) : list string := map value (dd_options d).

(** ** Vocabulary of the statements below *)

(** A frame whose index is the column ["Timestamp"] and that has no column
    of that name left. *)
Definition indexed_by_timestamp {F T} (df : DataFrame F T) : Prop :=
  (exists labels, index df = LabelIndex "Timestamp" labels) /\
  ~ In "Timestamp" (columns df).

(** The grid records [data] show the records [rows] of a file with header
    [header], one for one and in order: under ["Timestamp"] the parsed
    field of the time column [tname], under every other read column its
    parsed field. *)
Definition shows_file_rows {F T}
           (to_datetime_cell : list (Value F T) -> Value F T -> option T)
           (to_numeric_cell : list (Value F T) -> Value F T -> option F)
           (tname : string) (usecols header : list string)
           (rows : list (list string)) (data : list (dict (Value F T))) : Prop :=
  List.length data = List.length rows /\
  forall i row,
    nth_error rows i = Some row ->
    exists record,
      nth_error data i = Some record /\
      (forall j,
          nth_error header j = Some tname ->
          lookup record "Timestamp"
          = Some (Time (to_datetime_cell (map (field F T j) rows) (field F T j row)))) /\
      (forall j c,
          nth_error header j = Some c -> c <> tname -> mem c usecols = true ->
          lookup record c
          = Some (Num (to_numeric_cell (map (field F T j) rows) (field F T j row)))).

(** * Properties *)

(** ** The declared schema *)

Lemma declared_rivers_eq : declared_rivers = ["KualaSG"; "Bilut"; "Kechau"].
Proof. reflexivity. Qed.

Ltac each_declared H1 H2 :=
  unfold declared_rivers, dataset_kinds in H1, H2; simpl in H1, H2;
  repeat (destruct H1 as [H1 | H1]; [subst | ]); try contradiction;
  repeat (destruct H2 as [H2 | H2]; [subst | ]); try contradiction.

(** Every declared list has its time column first and nowhere else, and
    no repeated name. *)
Lemma declared_time_first river kind cols :
  declared river kind = Ok cols ->
  exists rest,
    cols = (if String.eqb kind "raw" then "time" else "Timestamp") :: rest /\
    Forall (fun c => time_like c = false) rest /\
    NoDup cols.
Proof.
  unfold declared, getitem, custom_variables. cbn [lookup].
  destruct (String.eqb "KualaSG" river);
    [ | destruct (String.eqb "Bilut" river);
        [ | destruct (String.eqb "Kechau" river);
            [ | intros H; discriminate H]]];
    cbn [lookup];
    (destruct (String.eqb_spec "raw" kind) as [<- | _];
     [ | destruct (String.eqb_spec "cleaned" kind) as [<- | _];
         [ | intros H; discriminate H]]);
    intros H; inversion H; subst; eexists;
    (split; [reflexivity | split;
       [ repeat (apply Forall_cons; [reflexivity | ]); apply Forall_nil
       | repeat (apply NoDup_cons; [simpl; intuition discriminate | ]);
         apply NoDup_nil ]]).
Qed.

(** C4: for a declared river and dataset kind the options are the declared
    columns without the first, in declared order; this is the declared list
    with its time column removed; label and value of an option are the
    column name; a name outside the new list is not among the options. *)
Theorem update_parameter_options_declared_tail :
  forall river kind,
    In river declared_rivers -> In kind dataset_kinds ->
    exists cols opts,
      declared river kind = Ok cols /\
      update_parameter_options river kind = Ok opts /\
      map value opts = tl cols /\
      map label opts = tl cols /\
      tl cols = filter (fun c => negb (time_like c)) cols /\
      (forall prior, ~ In prior (tl cols) -> ~ In prior (map value opts)).
Proof.
  intros river kind H1 H2.
  assert (E : exists cols, declared river kind = Ok cols /\
                           tl cols = filter (fun c => negb (time_like c)) cols).
  { each_declared H1 H2; eexists; split; reflexivity. }
  destruct E as (cols & E & Et).
  exists cols, (map (fun p => {| label := p; value := p |}) (tl cols)).
  unfold update_parameter_options; rewrite E.
  assert (Ev : map value (map (fun p => {| label := p; value := p |}) (tl cols)) = tl cols).
  { rewrite map_map; simpl; apply map_id. }
  assert (El : map label (map (fun p => {| label := p; value := p |}) (tl cols)) = tl cols).
  { rewrite map_map; simpl; apply map_id. }
  repeat split; auto.
  intros prior Hn; rewrite Ev; exact Hn.
Qed.

Lemma update_parameter_options_declared_tail_witness :
  exists cols opts,
    declared "Bilut" "cleaned" = Ok cols /\
    update_parameter_options "Bilut" "cleaned" = Ok opts /\
    map value opts = tl cols /\
    map label opts = tl cols /\
    tl cols = filter (fun c => negb (time_like c)) cols /\
    (forall prior, ~ In prior (tl cols) -> ~ In prior (map value opts)).
Proof.
  apply (update_parameter_options_declared_tail "Bilut" "cleaned");
    simpl; auto.
Defined.

(** C10: for every declared river and dataset kind the lookup succeeds,
    the declared list has at least two entries, and the option list is not
    empty. *)
Theorem update_parameter_options_nonempty :
  forall river kind,
    In river declared_rivers -> In kind dataset_kinds ->
    exists cols opts,
      declared river kind = Ok cols /\
      2 <= List.length cols /\
      update_parameter_options river kind = Ok opts /\
      opts <> [].
Proof.
  intros river kind H1 H2; each_declared H1 H2;
    (eexists; eexists; split; [reflexivity | split; [simpl; lia | split; [reflexivity | discriminate]]]).
Qed.

Lemma update_parameter_options_nonempty_witness :
  exists cols opts,
    declared "Kechau" "cleaned" = Ok cols /\
    2 <= List.length cols /\
    update_parameter_options "Kechau" "cleaned" = Ok opts /\
    opts <> [].
Proof.
  apply (update_parameter_options_nonempty "Kechau" "cleaned"); simpl; auto.
Defined.

(** A river or dataset kind outside the declaration is a [KeyError]. *)
Lemma update_parameter_options_undeclared :
  update_parameter_options "Pahang" "raw" = Raise (KeyError "Pahang") /\
  update_parameter_options "Bilut" "filtered" = Raise (KeyError "filtered").
Proof. split; reflexivity. Qed.

(** ** The effect log *)

Lemma bind_lift_ok {A B} (a : A) (f : A -> M B) : bind (lift (Ok a)) f = f a.
Proof. unfold bind, lift; destruct (f a); reflexivity. Qed.

Lemma bind_lift_raise {A B} (e : exn) (f : A -> M B) :
  bind (lift (Raise e)) f = ([], Raise e).
Proof. reflexivity. Qed.

Lemma bind_ok {A B} (l : list Event) (a : A) (f : A -> M B) :
  bind (l, Ok a) f = (l ++ events (f a), outcome (f a)).
Proof. unfold bind, events, outcome; destruct (f a); reflexivity. Qed.

Lemma bind_raise {A B} (l : list Event) (e : exn) (f : A -> M B) :
  bind (l, Raise e) f = (l, Raise e).
Proof. reflexivity. Qed.

Lemma first_event_bind {A B} (ev : Event) (m : M A) (f : A -> M B) :
  (exists rest, events m = ev :: rest) ->
  exists rest, events (bind m f) = ev :: rest.
Proof.
  intros [rest E]. destruct m as [l [a | e]]; simpl in E; subst l.
  - rewrite bind_ok. eexists; reflexivity.
  - rewrite bind_raise. eexists; reflexivity.
Qed.

Lemma first_event_try {A} (ev : Event) (body : M A) (handler : exn -> M A) :
  (exists rest, events body = ev :: rest) ->
  exists rest, events (try_except_FileNotFoundError body handler) = ev :: rest.
Proof.
  intros [rest E]. destruct body as [l [a | e]]; simpl in E; subst l; simpl.
  - eexists; reflexivity.
  - destruct e; simpl; try (eexists; reflexivity).
    destruct (handler (FileNotFoundError filename)). eexists; reflexivity.
Qed.

(** ** Dictionaries with distinct keys *)

Lemma keys_app {V} (d d' : dict V) : keys (d ++ d') = keys d ++ keys d'.
Proof. unfold keys; apply map_app. Qed.

Lemma lookup_skip {V} (pre post : dict V) (k : string) :
  ~ In k (keys pre) -> lookup (pre ++ post) k = lookup post k.
Proof.
  induction pre as [ | [c v] pre IH]; simpl; intros H; [reflexivity | ].
  destruct (String.eqb_spec c k) as [-> | _]; [tauto | ].
  apply IH; tauto.
Qed.

Lemma lookup_here {V} (pre post : dict V) (k : string) (v : V) :
  ~ In k (keys pre) -> lookup (pre ++ (k, v) :: post) k = Some v.
Proof.
  intros H; rewrite lookup_skip by exact H; simpl.
  rewrite String.eqb_refl; reflexivity.
Qed.

Lemma lookup_map {V W} (f : V -> W) (d : dict V) (k : string) :
  lookup (map (fun cv => (fst cv, f (snd cv))) d) k = option_map f (lookup d k).
Proof.
  induction d as [ | [c v] d IH]; simpl; [reflexivity | ].
  destruct (String.eqb c k); [reflexivity | exact IH].
Qed.

Lemma lookup_in_keys {V} (d : dict V) (k : string) (v : V) :
  lookup d k = Some v -> In k (keys d).
Proof.
  induction d as [ | [c w] d IH]; simpl; [discriminate | ].
  destruct (String.eqb_spec c k); [auto | intros H; right; auto].
Qed.

(** A key of a dictionary with distinct keys splits it in two parts that
    do not hold the key. *)
Lemma dict_split {V} (d : dict V) (k : string) :
  NoDup (keys d) -> In k (keys d) ->
  exists pre v post,
    d = pre ++ (k, v) :: post /\
    ~ In k (keys (pre ++ post)) /\ NoDup (keys (pre ++ post)).
Proof.
  intros N I. unfold keys in I. apply in_map_iff in I.
  destruct I as ([k' v] & Ek & I). simpl in Ek. subst k'.
  destruct (in_split _ _ I) as (pre & post & E). subst d.
  exists pre, v, post. split; [reflexivity | ].
  rewrite keys_app in N. simpl in N.
  rewrite keys_app. split.
  - apply NoDup_remove_2 in N. exact N.
  - apply NoDup_remove_1 in N. exact N.
Qed.

Lemma mem_In (x : string) (l : list string) : mem x l = true <-> In x l.
Proof.
  unfold mem. rewrite existsb_exists. split.
  - intros (y & I & E). apply String.eqb_eq in E. subst. exact I.
  - intros I. exists x. split; [exact I | apply String.eqb_refl].
Qed.

Section Facts.

Variables F T : Type.
Variable to_datetime_cell : list (Value F T) -> Value F T -> option T.
Variable to_numeric_cell : list (Value F T) -> Value F T -> option F.
Variable resample_mean : string -> DataFrame F T -> Result (DataFrame F T).
Variable Figure : Type.
Variable px_histogram : option (DataFrame F T) -> option string -> Result Figure.
Variable px_line : DataFrame F T -> Index F T -> option string -> Result Figure.

Local Abbreviation load := (load_data F T to_datetime_cell to_numeric_cell resample_mean).
Local Abbreviation display :=
  (update_content F T to_datetime_cell to_numeric_cell resample_mean
                  Figure px_histogram px_line).
Local Abbreviation resampled := (resample_all F T resample_mean).
Local Abbreviation init := (module_init F T to_datetime_cell to_numeric_cell resample_mean).
Local Abbreviation datetimes := (to_datetime F T to_datetime_cell).
Local Abbreviation numbers := (to_numeric F T to_numeric_cell).

(** A successful resampling returns eight tables: the two frames and six
    frames the resampler made of them. *)
Lemma resample_all_inv raw cleaned t :
  resampled raw cleaned = Ok t ->
  exists d w m cd cw cm,
    t = [Some raw; Some cleaned; Some d; Some w; Some m; Some cd; Some cw; Some cm] /\
    resample_mean "D" raw = Ok d /\
    resample_mean "W" raw = Ok w /\
    resample_mean "ME" raw = Ok m /\
    resample_mean "D" cleaned = Ok cd /\
    resample_mean "W" cleaned = Ok cw /\
    resample_mean "ME" cleaned = Ok cm.
Proof.
  unfold resample_all, and_then.
  destruct (resample_mean "D" raw) as [d | ]; [ | discriminate].
  destruct (resample_mean "W" raw) as [w | ]; [ | discriminate].
  destruct (resample_mean "ME" raw) as [m | ]; [ | discriminate].
  destruct (resample_mean "D" cleaned) as [cd | ]; [ | discriminate].
  destruct (resample_mean "W" cleaned) as [cw | ]; [ | discriminate].
  destruct (resample_mean "ME" cleaned) as [cm | ]; [ | discriminate].
  intros H; inversion H; subst.
  exists d, w, m, cd, cw, cm. repeat split; reflexivity.
Qed.

(** The steps after the reads perform no event; what they return is what
    resampling two frames returned. *)
Lemma prepare_shape a b l t :
  prepare F T to_datetime_cell to_numeric_cell resample_mean a b = (l, Ok t) ->
  l = [] /\ exists raw cleaned, resampled raw cleaned = Ok t.
Proof.
  unfold prepare.
  repeat match goal with
         | |- context [bind (lift ?r)] =>
             destruct r; [rewrite bind_lift_ok | rewrite bind_lift_raise; discriminate]
         end.
  unfold lift. intros H; inversion H; subst. split; [reflexivity | eauto].
Qed.

(** The guarded reads return the two frames or the pair [(None, None)]. *)
Lemma try_read_early fs river l t :
  try_read F T fs river = (l, Ok (inr t)) -> t = [None; None].
Proof.
  unfold try_read.
  destruct (read_both F T fs river) as [l0 [[a b] | e]].
  - rewrite bind_ok; simpl. intros H; inversion H.
  - rewrite bind_raise. destruct e; simpl; intros H; inversion H; reflexivity.
Qed.

(** [load_data] returns either the pair [(None, None)] or eight tables. *)
Lemma load_data_shape fs river ev t :
  load fs river = (ev, Ok t) ->
  t = [None; None] \/ exists raw cleaned, resampled raw cleaned = Ok t.
Proof.
  unfold load_data.
  destruct (try_read F T fs river) as [l [[[a b] | early] | e]] eqn:E.
  - rewrite bind_ok. intros H; inversion H.
    right.
    destruct (prepare F T to_datetime_cell to_numeric_cell resample_mean a b)
      as [l' [t' | e']] eqn:P; simpl in H2; inversion H2; subst t'.
    apply (prepare_shape a b l' t P).
  - apply try_read_early in E; subst. rewrite bind_ok; simpl.
    intros H; inversion H; auto.
  - rewrite bind_raise; discriminate.
Qed.

(** The loader opens the raw file of a declared river before anything
    else, so an empty event log shows that it did not run. *)
Lemma load_data_opens_raw fs river cols :
  declared river "raw" = Ok cols ->
  exists rest, events (load fs river) = Open (river ++ "_Raw.csv") :: rest.
Proof.
  intros D. unfold load_data.
  apply first_event_bind. unfold try_read.
  apply first_event_try. apply first_event_bind.
  unfold read_both. rewrite D, bind_lift_ok.
  apply first_event_bind. unfold read_csv. apply first_event_bind.
  eexists; reflexivity.
Qed.

(** C7: with zero activations the callback returns the placeholder,
    whatever the selectors and the files are, and performs no event: no
    file is opened and nothing is printed, so the loader did not run.  A
    triggered callback on a declared river, in contrast, starts by opening
    the raw file. *)
Theorem update_content_before_trigger :
  forall fs river dataset visualization time_range parameter,
    display fs 0 river dataset visualization time_range parameter
    = ([], Ok (Some (Div "Click 'Display Data' to show the results."))) /\
    (forall n cols,
        n <> 0 -> declared river "raw" = Ok cols ->
        exists rest,
          events (display fs n river dataset visualization time_range parameter)
          = Open (river ++ "_Raw.csv") :: rest).
Proof.
  intros fs river dataset visualization time_range parameter.
  split; [reflexivity | ].
  intros n cols Hn D. unfold update_content.
  destruct n; [contradiction | ]. cbn [Nat.eqb].
  apply first_event_bind. exact (load_data_opens_raw fs river cols D).
Qed.

(** A missing raw file: one read, two printed lines, [(None, None)]. *)
Lemma load_data_missing_raw fs river cols :
  declared river "raw" = Ok cols ->
  fs (river ++ "_Raw.csv")%string = NoSuchFile ->
  load fs river =
    ([Open (river ++ "_Raw.csv");
      Print ("Error: [Errno 2] No such file or directory: '" ++ (river ++ "_Raw.csv") ++ "'");
      Print "Ensure CSV files are available in the correct directory!"],
     Ok [None; None]).
Proof.
  intros D E. unfold load_data, try_read, read_both.
  rewrite D, bind_lift_ok. unfold read_csv. rewrite E. reflexivity.
Qed.

(** A raw file that loads and a missing cleaned file: two reads, two
    printed lines, [(None, None)]. *)
Lemma load_data_missing_cleaned fs river cols cols' h rows :
  declared river "raw" = Ok cols ->
  declared river "cleaned" = Ok cols' ->
  fs (river ++ "_Raw.csv")%string = Csv h rows ->
  usecols_present h cols = true ->
  fs (river ++ "_Cleaned.csv")%string = NoSuchFile ->
  load fs river =
    ([Open (river ++ "_Raw.csv"); Open (river ++ "_Cleaned.csv");
      Print ("Error: [Errno 2] No such file or directory: '" ++ (river ++ "_Cleaned.csv") ++ "'");
      Print "Ensure CSV files are available in the correct directory!"],
     Ok [None; None]).
Proof.
  intros D D' E U E'. unfold load_data, try_read, read_both.
  rewrite D, bind_lift_ok. unfold read_csv. rewrite E, U. simpl.
  rewrite D'. simpl. rewrite E'. reflexivity.
Qed.

(** After a load that returned [(None, None)] the unpacking of line 156
    raises, for every selector state. *)
Lemma update_content_after_failed_load fs n river dataset visualization time_range parameter ev :
  n <> 0 ->
  load fs river = (ev, Ok [None; None]) ->
  display fs n river dataset visualization time_range parameter
  = (ev, Raise unpack_error).
Proof.
  intros Hn L. unfold update_content.
  destruct n; [contradiction | ]. simpl Nat.eqb. cbv iota.
  rewrite L, bind_ok. simpl. rewrite app_nil_r. reflexivity.
Qed.

(** The same unpacking at module level stops the program at start-up when
    a file of the default river is missing. *)
Lemma module_init_missing_raw fs :
  fs "KualaSG_Raw.csv" = NoSuchFile ->
  outcome (init fs) = Raise unpack_error.
Proof.
  intros E. unfold module_init, selected_river.
  rewrite (load_data_missing_raw fs "KualaSG" _ eq_refl E). reflexivity.
Qed.

(** C5: once triggered and loaded, the trend view is [px.line] applied
    to the raw table resampled at the chosen granularity, with that table's
    index as x and the parameter as y, whatever the dataset selector
    says. *)
Theorem trend_reads_raw_resampled :
  forall fs n river dataset time_range rule parameter ev raw rest,
    n <> 0 ->
    In (time_range, rule) granularities ->
    load fs river = (ev, Ok (Some raw :: rest)) ->
    exists df_trend,
      resample_mean rule raw = Ok df_trend /\
      display fs n river dataset "trend" time_range parameter
      = (ev, match px_line df_trend (index df_trend) parameter with
             | Ok fig => Ok (Some (Graph fig))
             | Raise e => Raise e
             end).
Proof.
  intros fs n river dataset time_range rule parameter ev raw rest Hn Hg L.
  destruct (load_data_shape _ _ _ _ L) as [E | (raw' & cleaned & E)];
    [discriminate | ].
  destruct (resample_all_inv _ _ _ E)
    as (d & w & m & cd & cw & cm & Et & Rd & Rw & Rm & _).
  inversion Et; subst raw' rest. clear Et.
  unfold update_content.
  destruct n; [contradiction | ]. simpl Nat.eqb. cbv iota.
  rewrite L, bind_ok.
  unfold granularities in Hg. simpl in Hg.
  destruct Hg as [Hg | [Hg | [Hg | []]]]; inversion Hg; subst;
    [exists d | exists w | exists m]; (split; [assumption | ]); simpl;
    match goal with
    | |- context [px_line ?a ?b ?c] => destruct (px_line a b c)
    end; simpl; rewrite app_nil_r; reflexivity.
Qed.

(** *** The steps of [prepare] on a frame with distinct column names *)

Lemma time_like_Timestamp : time_like "Timestamp" = true.
Proof. reflexivity. Qed.

Lemma not_time_like_not_Timestamp (l : list string) :
  Forall (fun c => time_like c = false) l -> ~ In "Timestamp" l.
Proof.
  intros H I. rewrite Forall_forall in H. apply H in I.
  rewrite time_like_Timestamp in I. discriminate.
Qed.

Lemma assign_here (pre post : dict (list (Value F T))) k v v' :
  ~ In k (keys pre) ->
  assign F T k v' (pre ++ (k, v) :: post) = pre ++ (k, v') :: post.
Proof.
  induction pre as [ | [c w] pre IH]; simpl; intros H.
  - rewrite String.eqb_refl. reflexivity.
  - destruct (String.eqb_spec c k) as [-> | _]; [tauto | ].
    rewrite IH by tauto. reflexivity.
Qed.

Lemma rename_no_time (d : dict (list (Value F T))) :
  Forall (fun c => time_like c = false) (keys d) ->
  map (fun cv => (if time_like (fst cv) then "Timestamp" else fst cv, snd cv)) d = d.
Proof.
  induction d as [ | [c v] d IH]; simpl; intros H; [reflexivity | ].
  inversion H as [ | ? ? Hc Hd]; subst. rewrite Hc, IH by exact Hd. reflexivity.
Qed.

Lemma rename_time_split i pre post tcol :
  Forall (fun c => time_like c = false) (keys (pre ++ post)) ->
  rename_time F T {| index := i; columns_data := pre ++ ("time", tcol) :: post |}
  = {| index := i; columns_data := pre ++ ("Timestamp", tcol) :: post |}.
Proof.
  rewrite keys_app. intros H. apply Forall_app in H. destruct H as [H1 H2].
  unfold rename_time; simpl. f_equal.
  rewrite map_app. simpl. rewrite !rename_no_time by assumption. reflexivity.
Qed.

Lemma coerce_timestamp_split i pre post tcol :
  ~ In "Timestamp" (keys pre) ->
  coerce_timestamp F T to_datetime_cell
    {| index := i; columns_data := pre ++ ("Timestamp", tcol) :: post |}
  = Ok {| index := i;
          columns_data := pre ++ ("Timestamp", datetimes tcol) :: post |}.
Proof.
  intros H. unfold coerce_timestamp, frame_get, frame_set, getitem; simpl.
  rewrite lookup_here by exact H. rewrite assign_here by exact H. reflexivity.
Qed.

Lemma coerce_numeric_loop todo : forall done i,
  NoDup (keys (done ++ todo)) ->
  coerce_numeric F T to_numeric_cell (keys todo)
    {| index := i; columns_data := done ++ todo |}
  = Ok {| index := i;
          columns_data :=
            done ++ map (fun cv => if String.eqb (fst cv) "Timestamp" then cv
                                   else (fst cv, numbers (snd cv))) todo |}.
Proof.
  induction todo as [ | [c v] todo IH]; intros done i N; simpl.
  - reflexivity.
  - assert (Hc : ~ In c (keys done)).
    { rewrite keys_app in N. simpl in N. apply NoDup_remove_2 in N.
      intros I. apply N. apply in_or_app. left. exact I. }
    destruct (String.eqb_spec c "Timestamp") as [E | NE]; simpl.
    + replace (done ++ (c, v) :: todo) with ((done ++ [(c, v)]) ++ todo)
        by (rewrite <- app_assoc; reflexivity).
      rewrite IH.
      * rewrite <- app_assoc. reflexivity.
      * rewrite <- app_assoc. exact N.
    + unfold frame_get, frame_set, getitem; simpl.
      rewrite lookup_here by exact Hc. rewrite assign_here by exact Hc.
      replace (done ++ (c, numbers v) :: todo)
        with ((done ++ [(c, numbers v)]) ++ todo)
        by (rewrite <- app_assoc; reflexivity).
      rewrite IH.
      * rewrite <- app_assoc. reflexivity.
      * rewrite <- app_assoc. simpl.
        rewrite keys_app in N |- *. exact N.
Qed.

Lemma numeric_no_Timestamp (d : dict (list (Value F T))) :
  ~ In "Timestamp" (keys d) ->
  map (fun cv => if String.eqb (fst cv) "Timestamp" then cv
                 else (fst cv, numbers (snd cv))) d
  = map (fun cv => (fst cv, numbers (snd cv))) d.
Proof.
  induction d as [ | [c v] d IH]; simpl; intros H; [reflexivity | ].
  destruct (String.eqb_spec c "Timestamp") as [E | _]; [tauto | ].
  rewrite IH by tauto. reflexivity.
Qed.

Lemma drop_column_absent (d : dict (list (Value F T))) k :
  ~ In k (keys d) -> drop_column F T k d = d.
Proof.
  unfold drop_column.
  induction d as [ | [c v] d IH]; simpl; intros H; [reflexivity | ].
  destruct (String.eqb_spec c k) as [E | _]; [tauto | ].
  simpl. rewrite IH by tauto. reflexivity.
Qed.

Lemma drop_column_split (pre post : dict (list (Value F T))) k v :
  ~ In k (keys (pre ++ post)) ->
  drop_column F T k (pre ++ (k, v) :: post) = pre ++ post.
Proof.
  rewrite keys_app. intros H.
  assert (H1 : ~ In k (keys pre)) by (intros I; apply H, in_or_app; auto).
  assert (H2 : ~ In k (keys post)) by (intros I; apply H, in_or_app; auto).
  rewrite <- (drop_column_absent pre k H1) at 2.
  rewrite <- (drop_column_absent post k H2) at 2.
  unfold drop_column. rewrite filter_app. simpl.
  rewrite String.eqb_refl. reflexivity.
Qed.

Lemma set_index_split i pre post labels :
  ~ In "Timestamp" (keys (pre ++ post)) ->
  set_index F T "Timestamp"
    {| index := i; columns_data := pre ++ ("Timestamp", labels) :: post |}
  = Ok {| index := LabelIndex "Timestamp" labels; columns_data := pre ++ post |}.
Proof.
  rewrite keys_app. intros H.
  assert (H1 : ~ In "Timestamp" (keys pre)) by (intros I; apply H, in_or_app; auto).
  assert (H2 : ~ In "Timestamp" (keys post)) by (intros I; apply H, in_or_app; auto).
  unfold set_index, frame_get, getitem; simpl.
  rewrite lookup_here by exact H1.
  rewrite (drop_column_split pre post) by (rewrite keys_app; exact H).
  reflexivity.
Qed.

Lemma keys_numbers (d : dict (list (Value F T))) :
  keys (map (fun cv => (fst cv, numbers (snd cv))) d) = keys d.
Proof. unfold keys. rewrite map_map. reflexivity. Qed.

Lemma coerce_numeric_split i pre post labels :
  ~ In "Timestamp" (keys (pre ++ post)) ->
  NoDup (keys (pre ++ post)) ->
  coerce_numeric F T to_numeric_cell
    (keys (pre ++ ("Timestamp", labels) :: post))
    {| index := i; columns_data := pre ++ ("Timestamp", labels) :: post |}
  = Ok {| index := i;
          columns_data :=
            map (fun cv => (fst cv, numbers (snd cv))) pre
            ++ ("Timestamp", labels)
            :: map (fun cv => (fst cv, numbers (snd cv))) post |}.
Proof.
  intros H N.
  change (pre ++ ("Timestamp", labels) :: post)
    with ([] ++ (pre ++ ("Timestamp", labels) :: post)) at 2.
  rewrite (coerce_numeric_loop _ [] i).
  - simpl. rewrite map_app. simpl.
    rewrite keys_app in H.
    rewrite !numeric_no_Timestamp
      by (intros I; apply H, in_or_app; auto).
    reflexivity.
  - simpl. rewrite keys_app in *. simpl.
    apply (NoDup_Add (Add_app "Timestamp" (keys pre) (keys post))).
    split; assumption.
Qed.

(** The steps after the reads, on two frames with distinct column names
    whose only time-like columns are ["time"] and ["Timestamp"]. *)
Lemma prepare_ok i1 pre1 t1 post1 i2 pre2 t2 post2 :
  Forall (fun c => time_like c = false) (keys (pre1 ++ post1)) ->
  NoDup (keys (pre1 ++ post1)) ->
  Forall (fun c => time_like c = false) (keys (pre2 ++ post2)) ->
  NoDup (keys (pre2 ++ post2)) ->
  prepare F T to_datetime_cell to_numeric_cell resample_mean
    {| index := i1; columns_data := pre1 ++ ("time", t1) :: post1 |}
    {| index := i2; columns_data := pre2 ++ ("Timestamp", t2) :: post2 |}
  = ([], resampled
           (coerced F T to_datetime_cell to_numeric_cell t1 (pre1 ++ post1))
           (coerced F T to_datetime_cell to_numeric_cell t2 (pre2 ++ post2))).
Proof.
  intros L1 N1 L2 N2.
  pose proof (not_time_like_not_Timestamp _ L1) as T1.
  pose proof (not_time_like_not_Timestamp _ L2) as T2.
  assert (P1 : ~ In "Timestamp" (keys pre1))
    by (intros I; apply T1; rewrite keys_app; apply in_or_app; auto).
  assert (P2 : ~ In "Timestamp" (keys pre2))
    by (intros I; apply T2; rewrite keys_app; apply in_or_app; auto).
  unfold prepare.
  rewrite rename_time_split by exact L1.
  rewrite !coerce_timestamp_split by assumption.
  rewrite !bind_lift_ok. unfold columns. simpl columns_data.
  rewrite !coerce_numeric_split by assumption.
  rewrite !bind_lift_ok.
  rewrite !set_index_split
    by (rewrite keys_app, !keys_numbers, <- keys_app; assumption).
  rewrite !bind_lift_ok.
  unfold coerced, lift. rewrite !map_app. reflexivity.
Qed.

(** *** The reads *)

Lemma keys_select_columns usecols rows h : forall j,
  keys (select_columns F T usecols j h rows) = filter (fun c => mem c usecols) h.
Proof.
  induction h as [ | a h IH]; intros j; simpl; [reflexivity | ].
  destruct (mem a usecols); simpl; rewrite IH; reflexivity.
Qed.

(** The column the loader reads under a name is the column of the file at
    the position of that name in the header. *)
Lemma lookup_select_columns usecols rows c h : forall j0 j,
  NoDup h -> nth_error h j = Some c -> mem c usecols = true ->
  lookup (select_columns F T usecols j0 h rows) c
  = Some (map (field F T (j0 + j)) rows).
Proof.
  induction h as [ | a h IH]; intros j0 j N E M.
  - destruct j; discriminate.
  - destruct j as [ | j]; simpl in E.
    + inversion E; subst a. simpl. rewrite M. simpl.
      rewrite String.eqb_refl, Nat.add_0_r. reflexivity.
    + inversion N as [ | ? ? Ha Nh]; subst.
      assert (D : a <> c).
      { intros ->. apply Ha. eapply nth_error_In; eauto. }
      simpl. replace (j0 + S j) with (S j0 + j) by lia.
      destruct (mem a usecols); simpl.
      * destruct (String.eqb_spec a c); [contradiction | ].
        exact (IH (S j0) j Nh E M).
      * exact (IH (S j0) j Nh E M).
Qed.

Lemma read_both_ok fs river rcols ccols hr rr hc rc :
  declared river "raw" = Ok rcols ->
  declared river "cleaned" = Ok ccols ->
  fs (river ++ "_Raw.csv")%string = Csv hr rr ->
  fs (river ++ "_Cleaned.csv")%string = Csv hc rc ->
  usecols_present hr rcols = true ->
  usecols_present hc ccols = true ->
  read_both F T fs river
  = ([Open (river ++ "_Raw.csv"); Open (river ++ "_Cleaned.csv")],
     Ok ({| index := RangeIndex (List.length rr);
            columns_data := select_columns F T rcols 0 hr rr |},
         {| index := RangeIndex (List.length rc);
            columns_data := select_columns F T ccols 0 hc rc |})).
Proof.
  intros D1 D2 E1 E2 U1 U2. unfold read_both, read_csv.
  rewrite D1, D2, E1, E2. cbv beta iota.
  rewrite bind_lift_ok, U1. simpl. rewrite U2. reflexivity.
Qed.

(** A frame as read, with its time column named [tname], splits around
    that column; no other column is time-like. *)
Lemma select_columns_split tname rest h rows :
  NoDup h ->
  usecols_present h (tname :: rest) = true ->
  Forall (fun c => time_like c = false) rest ->
  exists pre tcol post,
    select_columns F T (tname :: rest) 0 h rows = pre ++ (tname, tcol) :: post /\
    ~ In tname (keys (pre ++ post)) /\
    NoDup (keys (pre ++ post)) /\
    Forall (fun c => time_like c = false) (keys (pre ++ post)).
Proof.
  intros N U L.
  assert (K : keys (select_columns F T (tname :: rest) 0 h rows)
              = filter (fun c => mem c (tname :: rest)) h)
    by apply keys_select_columns.
  assert (I : In tname (keys (select_columns F T (tname :: rest) 0 h rows))).
  { rewrite K. apply filter_In. split.
    - unfold usecols_present in U. simpl in U.
      apply andb_true_iff in U. apply mem_In, U.
    - apply mem_In. left. reflexivity. }
  assert (N' : NoDup (keys (select_columns F T (tname :: rest) 0 h rows)))
    by (rewrite K; apply NoDup_filter, N).
  destruct (dict_split _ _ N' I) as (pre & tcol & post & E & Hn & Hd).
  exists pre, tcol, post. repeat split; try assumption.
  apply Forall_forall. intros c Hc.
  assert (Hc' : In c (keys (select_columns F T (tname :: rest) 0 h rows))).
  { rewrite E, keys_app. simpl. rewrite keys_app in Hc.
    apply in_app_or in Hc. apply in_or_app. simpl. tauto. }
  rewrite K in Hc'. apply filter_In in Hc'. destruct Hc' as [_ Hm].
  apply mem_In in Hm. destruct Hm as [<- | Hm]; [contradiction | ].
  rewrite Forall_forall in L. apply L, Hm.
Qed.

(** *** A successful load *)

(** With both files present, their headers free of repeated names and
    holding every declared column, the loader reads both files, prints
    nothing and returns what resampling returns on two frames: the two
    files' declared columns, indexed by the parsed time column and coerced
    to numbers. *)
Lemma load_data_ok fs river rcols ccols hr rr hc rc :
  declared river "raw" = Ok rcols ->
  declared river "cleaned" = Ok ccols ->
  fs (river ++ "_Raw.csv")%string = Csv hr rr ->
  fs (river ++ "_Cleaned.csv")%string = Csv hc rc ->
  NoDup hr -> NoDup hc ->
  usecols_present hr rcols = true ->
  usecols_present hc ccols = true ->
  exists t1 t2,
    lookup (select_columns F T rcols 0 hr rr) "time" = Some t1 /\
    lookup (select_columns F T ccols 0 hc rc) "Timestamp" = Some t2 /\
    Forall (fun c => time_like c = false)
           (keys (drop_column F T "time" (select_columns F T rcols 0 hr rr))) /\
    Forall (fun c => time_like c = false)
           (keys (drop_column F T "Timestamp" (select_columns F T ccols 0 hc rc))) /\
    load fs river
    = ([Open (river ++ "_Raw.csv"); Open (river ++ "_Cleaned.csv")],
       resampled
         (coerced F T to_datetime_cell to_numeric_cell t1
            (drop_column F T "time" (select_columns F T rcols 0 hr rr)))
         (coerced F T to_datetime_cell to_numeric_cell t2
            (drop_column F T "Timestamp" (select_columns F T ccols 0 hc rc)))).
Proof.
  intros D1 D2 E1 E2 N1 N2 U1 U2.
  destruct (declared_time_first _ _ _ D1) as (rest1 & C1 & L1 & _).
  destruct (declared_time_first _ _ _ D2) as (rest2 & C2 & L2 & _).
  simpl in C1, C2. subst rcols ccols.
  destruct (select_columns_split "time" rest1 hr rr N1 U1 L1)
    as (pre1 & t1 & post1 & S1 & A1 & B1 & F1).
  destruct (select_columns_split "Timestamp" rest2 hc rc N2 U2 L2)
    as (pre2 & t2 & post2 & S2 & A2 & B2 & F2).
  assert (P1 : ~ In "time" (keys pre1))
    by (intros I; apply A1; rewrite keys_app; apply in_or_app; auto).
  assert (P2 : ~ In "Timestamp" (keys pre2))
    by (intros I; apply A2; rewrite keys_app; apply in_or_app; auto).
  exists t1, t2.
  rewrite S1, S2.
  rewrite !lookup_here by assumption.
  rewrite !drop_column_split by assumption.
  repeat split; try assumption.
  unfold load_data, try_read.
  rewrite (read_both_ok fs river _ _ hr rr hc rc D1 D2 E1 E2 U1 U2).
  rewrite S1, S2. rewrite bind_ok.
  cbn [events outcome ret fst snd app try_except_FileNotFoundError].
  rewrite bind_ok. rewrite prepare_ok by assumption. reflexivity.
Qed.

(** *** The cells of a loaded frame *)

Lemma lookup_absent {V} (d : dict V) (k : string) :
  ~ In k (keys d) -> lookup d k = None.
Proof.
  induction d as [ | [c v] d IH]; simpl; intros H; [reflexivity | ].
  destruct (String.eqb_spec c k) as [-> | _]; [tauto | ].
  apply IH; tauto.
Qed.

Lemma lookup_drop_column (d : dict (list (Value F T))) k c :
  c <> k -> lookup (drop_column F T k d) c = lookup d c.
Proof.
  intros H. unfold drop_column.
  induction d as [ | [c' v] d IH]; simpl; [reflexivity | ].
  destruct (String.eqb_spec c' k) as [-> | _]; simpl.
  - destruct (String.eqb_spec k c); [congruence | exact IH].
  - rewrite IH. reflexivity.
Qed.

Lemma keys_drop_column (d : dict (list (Value F T))) k :
  ~ In k (keys (drop_column F T k d)).
Proof.
  unfold drop_column, keys. intros I. apply in_map_iff in I.
  destruct I as ([c v] & E & I). simpl in E. subst c.
  apply filter_In in I. destruct I as [_ I]. simpl in I.
  rewrite String.eqb_refl in I. discriminate.
Qed.

Lemma select_columns_values usecols rows c col h : forall j0,
  lookup (select_columns F T usecols j0 h rows) c = Some col ->
  exists j, col = map (field F T j) rows.
Proof.
  induction h as [ | a h IH]; intros j0; simpl; [discriminate | ].
  destruct (mem a usecols); simpl.
  - destruct (String.eqb a c).
    + intros H; inversion H. eexists; reflexivity.
    + apply IH.
  - apply IH.
Qed.

Lemma coerced_from_file tname rest header rows tcol :
  NoDup header ->
  lookup (select_columns F T (tname :: rest) 0 header rows) tname = Some tcol ->
  coerced_from F T to_datetime_cell to_numeric_cell tname (tname :: rest) header rows
    (coerced F T to_datetime_cell to_numeric_cell tcol
       (drop_column F T tname (select_columns F T (tname :: rest) 0 header rows))).
Proof.
  intros N L.
  destruct (select_columns_values _ _ _ _ _ _ L) as (j0 & Ej0).
  unfold coerced_from, coerced, nrows; cbn [index columns_data].
  split; [ | split; [ | split]].
  - unfold to_datetime. rewrite Ej0, !length_map. reflexivity.
  - intros c cells H. rewrite lookup_map in H.
    destruct (lookup (drop_column F T tname
                        (select_columns F T (tname :: rest) 0 header rows)) c)
      as [col | ] eqn:E; [ | discriminate].
    simpl in H. inversion H; subst cells.
    destruct (String.eqb_spec c tname) as [-> | NE].
    + apply lookup_in_keys in E. apply keys_drop_column in E. contradiction.
    + rewrite lookup_drop_column in E by exact NE.
      destruct (select_columns_values _ _ _ _ _ _ E) as (j & ->).
      unfold to_numeric. rewrite !length_map. reflexivity.
  - intros j i row Hj Hi.
    assert (M : mem tname (tname :: rest) = true) by (apply mem_In; left; reflexivity).
    assert (Et : tcol = map (field F T j) rows).
    { rewrite (lookup_select_columns _ rows tname header 0 j N Hj M) in L.
      simpl in L. congruence. }
    rewrite Et. eexists. split; [reflexivity | ].
    assert (C : nth_error (datetimes (map (field F T j) rows)) i
                = Some (Time (to_datetime_cell (map (field F T j) rows)
                                               (field F T j row)))).
    { unfold to_datetime. rewrite !nth_error_map, Hi. reflexivity. }
    split; [exact C | ]. intros Hp. rewrite C, Hp. reflexivity.
  - intros j c i row Hj NE M Hi.
    eexists. rewrite lookup_map, lookup_drop_column by exact NE.
    rewrite (lookup_select_columns _ rows c header 0 j N Hj M). simpl.
    split; [reflexivity | ].
    assert (C : nth_error (numbers (map (field F T j) rows)) i
                = Some (Num (to_numeric_cell (map (field F T j) rows)
                                             (field F T j row)))).
    { unfold to_numeric. rewrite !nth_error_map, Hi. reflexivity. }
    split; [exact C | ]. intros Hp. rewrite C, Hp. reflexivity.
Qed.

(** C8: when both files of a declared river are present and hold the
    declared columns, renaming, coercion and indexing raise nothing: the
    loader goes on to resample two tables, each with as many rows as its
    file has records; in them a time field that fails date-time parsing is
    NaT in the index, a field of another column that fails numeric
    coercion is NaN in that column, and every other cell is its parsed
    field. *)
Theorem coercion_keeps_rows_and_marks_failures :
  forall fs river rcols ccols hr rr hc rc,
    declared river "raw" = Ok rcols ->
    declared river "cleaned" = Ok ccols ->
    fs (river ++ "_Raw.csv")%string = Csv hr rr ->
    fs (river ++ "_Cleaned.csv")%string = Csv hc rc ->
    NoDup hr -> NoDup hc ->
    usecols_present hr rcols = true ->
    usecols_present hc ccols = true ->
    exists raw cleaned,
      load fs river
      = ([Open (river ++ "_Raw.csv"); Open (river ++ "_Cleaned.csv")],
         resampled raw cleaned) /\
      coerced_from F T to_datetime_cell to_numeric_cell "time" rcols hr rr raw /\
      coerced_from F T to_datetime_cell to_numeric_cell "Timestamp" ccols hc rc cleaned.
Proof.
  intros fs river rcols ccols hr rr hc rc D1 D2 E1 E2 N1 N2 U1 U2.
  destruct (load_data_ok fs river rcols ccols hr rr hc rc D1 D2 E1 E2 N1 N2 U1 U2)
    as (t1 & t2 & L1 & L2 & _ & _ & L).
  destruct (declared_time_first _ _ _ D1) as (rest1 & C1 & _ & _).
  destruct (declared_time_first _ _ _ D2) as (rest2 & C2 & _ & _).
  simpl in C1, C2. subst rcols ccols.
  eexists. eexists. rewrite L. split; [reflexivity | ].
  split; apply coerced_from_file; assumption.
Qed.

Lemma columns_coerced (tcol : list (Value F T)) (others : dict (list (Value F T))) :
  columns (coerced F T to_datetime_cell to_numeric_cell tcol others) = keys others.
Proof. unfold columns, coerced; simpl. apply keys_numbers. Qed.

(** One file's share of C9: a time-like column among those read is the
    index of the loaded frame, named ["Timestamp"] and parsed, and no
    time-like name is left among the columns. *)
Lemma time_column_becomes_index tname rest header rows tcol :
  NoDup header ->
  time_like tname = true ->
  Forall (fun c => time_like c = false) rest ->
  lookup (select_columns F T (tname :: rest) 0 header rows) tname = Some tcol ->
  Forall (fun c => time_like c = false)
         (keys (drop_column F T tname (select_columns F T (tname :: rest) 0 header rows))) ->
  forall j c,
    nth_error header j = Some c -> mem c (tname :: rest) = true -> time_like c = true ->
    index (coerced F T to_datetime_cell to_numeric_cell tcol
             (drop_column F T tname (select_columns F T (tname :: rest) 0 header rows)))
    = LabelIndex "Timestamp" (datetimes (map (field F T j) rows)) /\
    ~ In c (columns (coerced F T to_datetime_cell to_numeric_cell tcol
             (drop_column F T tname (select_columns F T (tname :: rest) 0 header rows)))).
Proof.
  intros N Tt L0 L K j c Hj M Hc.
  assert (E : c = tname).
  { apply mem_In in M. destruct M as [E | I]; [symmetry; exact E | ].
    rewrite Forall_forall in L0. rewrite (L0 _ I) in Hc. discriminate. }
  subst c. split.
  - rewrite (lookup_select_columns _ rows tname header 0 j N Hj M) in L.
    simpl in L. inversion L. reflexivity.
  - rewrite columns_coerced. intros I.
    rewrite Forall_forall in K. rewrite (K _ I) in Hc. discriminate.
Qed.

(** C9: in both loaded tables every column read under a name that holds
    "time" in any letter case is found under the name ["Timestamp"]: it is
    the index, and no time-like name is left among the columns.  Its
    values are the parsed fields of that file column, so the renaming took
    place before the coercion; coercing the raw frame as read, before the
    renaming, raises [KeyError]. *)
Theorem time_columns_renamed_before_coercion :
  forall fs river rcols ccols hr rr hc rc,
    declared river "raw" = Ok rcols ->
    declared river "cleaned" = Ok ccols ->
    fs (river ++ "_Raw.csv")%string = Csv hr rr ->
    fs (river ++ "_Cleaned.csv")%string = Csv hc rc ->
    NoDup hr -> NoDup hc ->
    usecols_present hr rcols = true ->
    usecols_present hc ccols = true ->
    exists raw cleaned,
      load fs river
      = ([Open (river ++ "_Raw.csv"); Open (river ++ "_Cleaned.csv")],
         resampled raw cleaned) /\
      (forall j c,
          nth_error hr j = Some c -> mem c rcols = true -> time_like c = true ->
          index raw = LabelIndex "Timestamp" (datetimes (map (field F T j) rr)) /\
          ~ In c (columns raw)) /\
      (forall j c,
          nth_error hc j = Some c -> mem c ccols = true -> time_like c = true ->
          index cleaned = LabelIndex "Timestamp" (datetimes (map (field F T j) rc)) /\
          ~ In c (columns cleaned)) /\
      (forall c, In c (columns raw) \/ In c (columns cleaned) -> time_like c = false) /\
      coerce_timestamp F T to_datetime_cell
        {| index := RangeIndex (List.length rr);
           columns_data := select_columns F T rcols 0 hr rr |}
      = Raise (KeyError "Timestamp").
Proof.
  intros fs river rcols ccols hr rr hc rc D1 D2 E1 E2 N1 N2 U1 U2.
  destruct (load_data_ok fs river rcols ccols hr rr hc rc D1 D2 E1 E2 N1 N2 U1 U2)
    as (t1 & t2 & L1 & L2 & K1 & K2 & L).
  destruct (declared_time_first _ _ _ D1) as (rest1 & C1 & R1 & _).
  destruct (declared_time_first _ _ _ D2) as (rest2 & C2 & R2 & _).
  simpl in C1, C2. subst rcols ccols.
  eexists. eexists. rewrite L. split; [reflexivity | ].
  split; [ | split; [ | split]].
  - apply time_column_becomes_index; auto.
  - apply time_column_becomes_index; auto.
  - intros c [I | I]; rewrite columns_coerced in I.
    + rewrite Forall_forall in K1. apply K1, I.
    + rewrite Forall_forall in K2. apply K2, I.
  - unfold coerce_timestamp, frame_get, getitem. cbn [columns_data].
    rewrite lookup_absent; [reflexivity | ].
    rewrite keys_select_columns. intros I. apply filter_In in I.
    destruct I as [_ I]. apply mem_In in I. destruct I as [I | I]; [discriminate | ].
    rewrite Forall_forall in R1. specialize (R1 _ I).
    rewrite time_like_Timestamp in R1. discriminate.
Qed.

(** C2, as the code has it: when the raw file of a declared river is
    missing, or the raw file loads and the cleaned file is missing, the
    loader returns normally and every entry of its result is [None], so
    neither table is returned; when both files are present and hold the
    declared columns, a load that returns returns eight tables as one
    tuple: the raw table and the cleaned table, which hold the records of
    their files coerced, then the daily, weekly and monthly resampling of
    the raw table and those of the cleaned table. *)
Theorem load_data_all_or_nothing :
  forall fs river rcols ccols,
    declared river "raw" = Ok rcols ->
    declared river "cleaned" = Ok ccols ->
    (fs (river ++ "_Raw.csv")%string = NoSuchFile ->
     exists t, outcome (load fs river) = Ok t /\
               Forall (fun table => table = None) t) /\
    (forall hr rr,
        fs (river ++ "_Raw.csv")%string = Csv hr rr ->
        usecols_present hr rcols = true ->
        fs (river ++ "_Cleaned.csv")%string = NoSuchFile ->
        exists t, outcome (load fs river) = Ok t /\
                  Forall (fun table => table = None) t) /\
    (forall hr rr hc rc,
        fs (river ++ "_Raw.csv")%string = Csv hr rr ->
        fs (river ++ "_Cleaned.csv")%string = Csv hc rc ->
        NoDup hr -> NoDup hc ->
        usecols_present hr rcols = true ->
        usecols_present hc ccols = true ->
        exists raw cleaned,
          coerced_from F T to_datetime_cell to_numeric_cell "time" rcols hr rr raw /\
          coerced_from F T to_datetime_cell to_numeric_cell
                       "Timestamp" ccols hc rc cleaned /\
          forall t,
            outcome (load fs river) = Ok t ->
            exists d w m cd cw cm,
              t = [Some raw; Some cleaned; Some d; Some w; Some m;
                   Some cd; Some cw; Some cm] /\
              resample_mean "D" raw = Ok d /\
              resample_mean "W" raw = Ok w /\
              resample_mean "ME" raw = Ok m /\
              resample_mean "D" cleaned = Ok cd /\
              resample_mean "W" cleaned = Ok cw /\
              resample_mean "ME" cleaned = Ok cm).
Proof.
  intros fs river rcols ccols D1 D2. split; [ | split].
  - intros E. rewrite (load_data_missing_raw fs river rcols D1 E).
    eexists. split; [reflexivity | ]. repeat constructor.
  - intros hr rr E U E'.
    rewrite (load_data_missing_cleaned fs river rcols ccols hr rr D1 D2 E U E').
    eexists. split; [reflexivity | ]. repeat constructor.
  - intros hr rr hc rc E1 E2 N1 N2 U1 U2.
    destruct (load_data_ok fs river rcols ccols hr rr hc rc D1 D2 E1 E2 N1 N2 U1 U2)
      as (t1 & t2 & L1 & L2 & _ & _ & L).
    destruct (declared_time_first _ _ _ D1) as (rest1 & C1 & _ & _).
    destruct (declared_time_first _ _ _ D2) as (rest2 & C2 & _ & _).
    simpl in C1, C2. subst rcols ccols.
    eexists. eexists.
    split; [exact (coerced_from_file "time" rest1 hr rr t1 N1 L1) | ].
    split; [exact (coerced_from_file "Timestamp" rest2 hc rc t2 N2 L2) | ].
    rewrite L. simpl. intros t R.
    destruct (resample_all_inv _ _ _ R)
      as (d & w & m & cd & cw & cm & Et & Rd & Rw & Rm & Rcd & Rcw & Rcm).
    exists d, w, m, cd, cw, cm.
    split; [exact Et | ]. repeat split; assumption.
Qed.

(** *** The table view *)

(** Once triggered and loaded, the table view shows the records of the
    selected frame with its index put back as a column, under the column
    list of the frame as it is, with the index not put back. *)
Lemma table_view fs n river dataset time_range rule parameter ev raw cleaned t :
  n <> 0 ->
  In (time_range, rule) granularities ->
  load fs river = (ev, Ok t) ->
  resampled raw cleaned = Ok t ->
  display fs n river dataset "table" time_range parameter
  = (ev, match reset_index F T (if String.eqb dataset "raw" then raw else cleaned) with
         | Ok flat =>
             Ok (Some (DataTable
                         (to_dict_records F T flat)
                         (map (fun i => {| name := i; id := i |})
                              (columns (if String.eqb dataset "raw"
                                        then raw else cleaned)))))
         | Raise e => Raise e
         end).
Proof.
  intros Hn Hg L R.
  destruct (resample_all_inv _ _ _ R) as (d & w & m & cd & cw & cm & Et & _).
  subst t. unfold update_content.
  destruct n; [contradiction | ]. cbn [Nat.eqb].
  rewrite L, bind_ok.
  destruct (String.eqb dataset "raw");
    unfold granularities in Hg; simpl in Hg;
    destruct Hg as [Hg | [Hg | [Hg | []]]]; inversion Hg; subst; simpl;
    match goal with
    | |- context [reset_index ?f ?t ?d] => destruct (reset_index f t d)
    end; simpl; rewrite app_nil_r; reflexivity.
Qed.

Lemma reset_index_coerced tcol others :
  ~ In "Timestamp" (keys others) ->
  reset_index F T (coerced F T to_datetime_cell to_numeric_cell tcol others)
  = Ok {| index := RangeIndex (List.length (datetimes tcol));
          columns_data :=
            ("Timestamp", datetimes tcol)
            :: map (fun cv => (fst cv, numbers (snd cv))) others |}.
Proof.
  intros H. unfold reset_index. cbn [index coerced].
  rewrite columns_coerced.
  destruct (mem "Timestamp" (keys others)) eqn:M; [ | reflexivity].
  apply mem_In in M. contradiction.
Qed.

(** For every river whose load returns eight tables, the grid of the raw
    table view has one record per record of the raw file, every record
    holds the time stamp, and the column list of the grid does not. *)
Lemma table_view_raw_lacks_timestamp
      fs n river time_range rule parameter rcols ccols hr rr hc rc :
  n <> 0 ->
  In (time_range, rule) granularities ->
  declared river "raw" = Ok rcols ->
  declared river "cleaned" = Ok ccols ->
  fs (river ++ "_Raw.csv")%string = Csv hr rr ->
  fs (river ++ "_Cleaned.csv")%string = Csv hc rc ->
  NoDup hr -> NoDup hc ->
  usecols_present hr rcols = true ->
  usecols_present hc ccols = true ->
  forall t,
  outcome (load fs river) = Ok t ->
  exists data cols,
    outcome (display fs n river "raw" "table" time_range parameter)
    = Ok (Some (DataTable data cols)) /\
    List.length data = List.length rr /\
    Forall (fun record => In "Timestamp" (keys record)) data /\
    ~ In "Timestamp" (map id cols).
Proof.
  intros Hn Hg D1 D2 E1 E2 N1 N2 U1 U2 t R.
  destruct (load_data_ok fs river rcols ccols hr rr hc rc D1 D2 E1 E2 N1 N2 U1 U2)
    as (t1 & t2 & L1 & L2 & K1 & K2 & L).
  rewrite L in R. simpl in R. rewrite R in L.
  rewrite (table_view fs n river "raw" time_range rule parameter _ _ _ _ Hn Hg L R).
  cbn [String.eqb Ascii.eqb Bool.eqb outcome snd].
  pose proof (not_time_like_not_Timestamp _ K1) as NT.
  rewrite reset_index_coerced by exact NT.
  eexists. eexists. split; [reflexivity | ].
  destruct (select_columns_values _ _ _ _ _ _ L1) as (j & Ej).
  split; [ | split].
  - unfold to_dict_records, nrows. cbn [index].
    rewrite length_map, length_seq. unfold to_datetime.
    rewrite Ej, !length_map. reflexivity.
  - unfold to_dict_records. apply Forall_forall. intros record I.
    apply in_map_iff in I. destruct I as (i & <- & _).
    cbn [columns_data map keys fst]. left. reflexivity.
  - rewrite map_map. cbn [id]. rewrite map_id, columns_coerced. exact NT.
Qed.

End Facts.

(** ** The embedding on concrete files *)

Ltac distinct_names :=
  repeat (apply NoDup_cons; [simpl; intuition discriminate | ]); apply NoDup_nil.

(** C1: with [Kechau_Raw.csv] present and [Kechau_Cleaned.csv] missing the
    loader reads both paths, prints its two lines and returns
    [(None, None)]; the display callback, triggered once, then raises
    [ValueError] from the unpacking of line 156 instead of rendering. *)
Theorem update_content_missing_file_raises :
  Sample.fs "Kechau_Raw.csv" = Sample.kechau_raw /\
  Sample.fs "Kechau_Cleaned.csv" = NoSuchFile /\
  Sample.load Sample.fs "Kechau"
  = ([Open "Kechau_Raw.csv"; Open "Kechau_Cleaned.csv";
      Print "Error: [Errno 2] No such file or directory: 'Kechau_Cleaned.csv'";
      Print "Ensure CSV files are available in the correct directory!"],
     Ok [None; None]) /\
  Sample.display Sample.fs 1 "Kechau" "raw" "table" "daily" None
  = ([Open "Kechau_Raw.csv"; Open "Kechau_Cleaned.csv";
      Print "Error: [Errno 2] No such file or directory: 'Kechau_Cleaned.csv'";
      Print "Ensure CSV files are available in the correct directory!"],
     Raise (ValueError "not enough values to unpack (expected 8, got 2)")).
Proof. repeat split; vm_compute; reflexivity. Qed.

(** C2, as stated, fails: with [Kechau_Raw.csv] present and
    [Kechau_Cleaned.csv] missing the loader does not return the raw
    table. *)
Lemma load_data_partial_failure_counterexample :
  Sample.fs "Kechau_Raw.csv" = Sample.kechau_raw /\
  Sample.fs "Kechau_Cleaned.csv" = NoSuchFile /\
  ~ (exists raw rest,
        outcome (Sample.load Sample.fs "Kechau") = Ok (Some raw :: rest)).
Proof.
  split; [reflexivity | split; [reflexivity | ]].
  intros (raw & rest & H). vm_compute in H. discriminate H.
Qed.

(** C3: for KualaSG, dataset raw, the table view of a raw file with two
    records has two records, each with its time stamp, but the column list
    of the grid is the nine sensor columns: ["Timestamp"] is not among
    them. *)
Theorem table_view_columns_lack_timestamp :
  exists data cols,
    Sample.display Sample.fs 1 "KualaSG" "raw" "table" "daily" None
    = ([Open "KualaSG_Raw.csv"; Open "KualaSG_Cleaned.csv"],
       Ok (Some (DataTable data cols))) /\
    List.length data = List.length Sample.kuala_raw_rows /\
    Forall (fun record => In "Timestamp" (keys record)) data /\
    map id cols = ["PH_Sensor"; "ORP_Sensor"; "TR_Sensor"; "CT_Sensor";
                   "TDS_Sensor"; "NH_SEnsor"; "DO_Sensor"; "COD_Sensor";
                   "BOD_Sensor"] /\
    ~ In "Timestamp" (map id cols).
Proof.
  eexists. eexists. split; [vm_compute; reflexivity | ].
  split; [reflexivity | ]. split.
  - repeat (apply Forall_cons; [left; reflexivity | ]). apply Forall_nil.
  - split; [reflexivity | ]. simpl. intuition discriminate.
Qed.

Lemma load_data_all_or_nothing_witness :
  (exists t, outcome (Sample.load Sample.empty_fs "KualaSG") = Ok t /\
             Forall (fun table => table = None) t) /\
  (exists t, outcome (Sample.load Sample.fs "Kechau") = Ok t /\
             Forall (fun table => table = None) t) /\
  exists rcols t raw cleaned d w m cd cw cm,
    declared "KualaSG" "raw" = Ok rcols /\
    coerced_from N N Sample.to_datetime_cell Sample.to_numeric_cell
                 "time" rcols Sample.kuala_raw_header Sample.kuala_raw_rows raw /\
    outcome (Sample.load Sample.fs "KualaSG") = Ok t /\
    t = [Some raw; Some cleaned; Some d; Some w; Some m; Some cd; Some cw; Some cm] /\
    Sample.resample_mean "D" raw = Ok d /\
    Sample.resample_mean "W" raw = Ok w /\
    Sample.resample_mean "ME" raw = Ok m /\
    Sample.resample_mean "D" cleaned = Ok cd /\
    Sample.resample_mean "W" cleaned = Ok cw /\
    Sample.resample_mean "ME" cleaned = Ok cm.
Proof.
  split; [ | split].
  - apply (load_data_all_or_nothing
             N N Sample.to_datetime_cell Sample.to_numeric_cell Sample.resample_mean
             Sample.empty_fs "KualaSG" _ _ eq_refl eq_refl).
    reflexivity.
  - apply (proj1 (proj2 (load_data_all_or_nothing
             N N Sample.to_datetime_cell Sample.to_numeric_cell Sample.resample_mean
             Sample.fs "Kechau" _ _ eq_refl eq_refl))
             Sample.kechau_raw_header Sample.kechau_raw_rows);
      reflexivity.
  - assert (L : outcome (Sample.load Sample.fs "KualaSG") = Ok _)
      by (vm_compute; reflexivity).
    destruct (proj2 (proj2 (load_data_all_or_nothing
             N N Sample.to_datetime_cell Sample.to_numeric_cell Sample.resample_mean
             Sample.fs "KualaSG" _ _ eq_refl eq_refl))
             Sample.kuala_raw_header Sample.kuala_raw_rows
             Sample.kuala_cleaned_header Sample.kuala_cleaned_rows
             eq_refl eq_refl ltac:(distinct_names) ltac:(distinct_names)
             eq_refl eq_refl)
      as (raw & cleaned & Fr & _ & A).
    destruct (A _ L) as (d & w & m & cd & cw & cm & E & Rd & Rw & Rm & Rcd & Rcw & Rcm).
    eexists. eexists. exists raw, cleaned, d, w, m, cd, cw, cm.
    split; [reflexivity | ]. split; [exact Fr | ]. split; [exact L | ].
    split; [exact E | ]. repeat split; assumption.
Defined.

Lemma trend_reads_raw_resampled_witness :
  1 <> 0 /\
  In ("weekly", "W") granularities /\
  exists ev raw rest df_trend,
    Sample.load Sample.fs "KualaSG" = (ev, Ok (Some raw :: rest)) /\
    Sample.resample_mean "W" raw = Ok df_trend /\
    Sample.display Sample.fs 1 "KualaSG" "cleaned" "trend" "weekly" (Some "PH_Sensor")
    = (ev, Ok (Some (Graph (Sample.Line df_trend (index df_trend)
                                        (Some "PH_Sensor"))))).
Proof.
  split; [discriminate | ]. split; [right; left; reflexivity | ].
  assert (L : Sample.load Sample.fs "KualaSG" = (_, Ok (Some _ :: _)))
    by (vm_compute; reflexivity).
  destruct (trend_reads_raw_resampled
              N N Sample.to_datetime_cell Sample.to_numeric_cell Sample.resample_mean
              Sample.Fig Sample.px_histogram Sample.px_line
              Sample.fs 1 "KualaSG" "cleaned" "weekly" "W" (Some "PH_Sensor")
              _ _ _ ltac:(discriminate) ltac:(right; left; reflexivity) L)
    as (df_trend & R & D).
  do 3 eexists. exists df_trend.
  split; [exact L | ]. split; [exact R | exact D].
Defined.

Lemma coercion_keeps_rows_and_marks_failures_witness :
  exists rcols ccols,
    declared "KualaSG" "raw" = Ok rcols /\
    declared "KualaSG" "cleaned" = Ok ccols /\
    exists raw cleaned,
      Sample.load Sample.fs "KualaSG"
      = ([Open "KualaSG_Raw.csv"; Open "KualaSG_Cleaned.csv"],
         resample_all N N Sample.resample_mean raw cleaned) /\
      coerced_from N N Sample.to_datetime_cell Sample.to_numeric_cell
                   "time" rcols Sample.kuala_raw_header Sample.kuala_raw_rows raw /\
      coerced_from N N Sample.to_datetime_cell Sample.to_numeric_cell
                   "Timestamp" ccols Sample.kuala_cleaned_header
                   Sample.kuala_cleaned_rows cleaned.
Proof.
  eexists. eexists. split; [reflexivity | ]. split; [reflexivity | ].
  apply (coercion_keeps_rows_and_marks_failures
           N N Sample.to_datetime_cell Sample.to_numeric_cell Sample.resample_mean
           Sample.fs "KualaSG");
    try reflexivity; distinct_names.
Defined.

Lemma time_columns_renamed_before_coercion_witness :
  exists raw cleaned,
    Sample.load Sample.fs "KualaSG"
    = ([Open "KualaSG_Raw.csv"; Open "KualaSG_Cleaned.csv"],
       resample_all N N Sample.resample_mean raw cleaned) /\
    index raw = LabelIndex "Timestamp" [Time (Some 20240101%N); Time None] /\
    index cleaned = LabelIndex "Timestamp" [Time (Some 20240101%N)] /\
    ~ In "time" (columns raw) /\
    ~ In "Timestamp" (columns cleaned).
Proof.
  destruct (time_columns_renamed_before_coercion
              N N Sample.to_datetime_cell Sample.to_numeric_cell Sample.resample_mean
              Sample.fs "KualaSG" _ _
              Sample.kuala_raw_header Sample.kuala_raw_rows
              Sample.kuala_cleaned_header Sample.kuala_cleaned_rows
              eq_refl eq_refl eq_refl eq_refl
              ltac:(distinct_names) ltac:(distinct_names) eq_refl eq_refl)
    as (raw & cleaned & L & R & C & _ & _).
  exists raw, cleaned. split; [exact L | ].
  destruct (R 0 "time" eq_refl eq_refl eq_refl) as [Ri Rn].
  destruct (C 0 "Timestamp" eq_refl eq_refl eq_refl) as [Ci Cn].
  repeat split; assumption.
Defined.

Lemma update_content_before_trigger_witness :
  Sample.display Sample.fs 0 "KualaSG" "cleaned" "trend" "monthly" (Some "DO_Sensor")
  = ([], Ok (Some (Div "Click 'Display Data' to show the results."))) /\
  exists rest,
    events (Sample.display Sample.fs 1 "KualaSG" "cleaned" "trend" "monthly"
                           (Some "DO_Sensor"))
    = Open "KualaSG_Raw.csv" :: rest.
Proof.
  destruct (update_content_before_trigger
              N N Sample.to_datetime_cell Sample.to_numeric_cell Sample.resample_mean
              Sample.Fig Sample.px_histogram Sample.px_line
              Sample.fs "KualaSG" "cleaned" "trend" "monthly" (Some "DO_Sensor"))
    as [Z P].
  split; [exact Z | ].
  exact (P 1 _ ltac:(discriminate) eq_refl).
Defined.

(** * Further properties of the code *)

(** ** The time-column test of line 37 *)

Lemma prefix_iff (a : string) : forall b,
  prefix a b = true <-> exists rest, b = (a ++ rest)%string.
Proof.
  induction a as [ | x a IH]; intros b.
  - split; [intros _; exists b; reflexivity | intros _; destruct b; reflexivity].
  - destruct b as [ | y b]; simpl.
    + split; [discriminate | intros [rest H]; discriminate H].
    + destruct (ascii_dec x y) as [-> | NE].
      * rewrite IH. split; intros [rest H]; exists rest.
        -- rewrite H. reflexivity.
        -- inversion H. reflexivity.
      * split; [discriminate | ].
        intros [rest H]. injection H as E _. destruct (NE (eq_sym E)).
Qed.

Lemma contains_iff (needle : string) : forall hay,
  contains needle hay = true
  <-> exists pre post, hay = (pre ++ needle ++ post)%string.
Proof.
  induction hay as [ | c hay IH]; cbn [contains].
  - rewrite prefix_iff. split.
    + intros [rest H]. exists EmptyString, rest. exact H.
    + intros (pre & post & H). destruct pre; [ | discriminate H].
      exists post. exact H.
  - rewrite orb_true_iff, IH, prefix_iff. split.
    + intros [[rest H] | (pre & post & H)].
      * exists EmptyString, rest. exact H.
      * exists (String c pre), post. rewrite H. reflexivity.
    + intros (pre & post & H). destruct pre as [ | c' pre].
      * left. exists post. exact H.
      * right. inversion H. exists pre, post. reflexivity.
Qed.

Lemma lower_ascii_idempotent (c : ascii) : lower_ascii (lower_ascii c) = lower_ascii c.
Proof.
  destruct c as [[ | ] [ | ] [ | ] [ | ] [ | ] [ | ] [ | ] [ | ]]; reflexivity.
Qed.

Lemma lower_idempotent (s : string) : lower (lower s) = lower s.
Proof.
  induction s as [ | c s IH]; simpl; [reflexivity | ].
  rewrite lower_ascii_idempotent, IH. reflexivity.
Qed.

(** X1: a column name passes the test of line 37 exactly when its lower-case
    form has "time" as a substring; the test gives the same answer on a
    name and on its lower-case form, so it ignores the case of ASCII
    letters. *)
Theorem time_like_substring :
  forall col,
    (time_like col = true
     <-> exists pre post, lower col = (pre ++ "time" ++ post)%string) /\
    time_like (lower col) = time_like col.
Proof.
  intros col. unfold time_like. split.
  - apply contains_iff.
  - rewrite lower_idempotent. reflexivity.
Qed.

(** ** The parameter dropdown outside the declaration *)

Lemma lookup_outside_keys {V} (d : dict V) (k : string) :
  ~ In k (keys d) -> lookup d k = None.
Proof.
  induction d as [ | [c v] d IH]; simpl; intros H; [reflexivity | ].
  destruct (String.eqb_spec c k) as [-> | _]; [tauto | ].
  apply IH. tauto.
Qed.

(** X2: the parameter callback raises [KeyError] with the river as key when
    the river is not declared, and with the dataset kind as key when the
    river is declared and the kind is neither ["raw"] nor ["cleaned"]; so
    it returns options exactly for the declared rivers and the two
    kinds. *)
Theorem update_parameter_options_key_errors :
  forall river kind,
    (~ In river declared_rivers ->
     update_parameter_options river kind = Raise (KeyError river)) /\
    (In river declared_rivers -> ~ In kind dataset_kinds ->
     update_parameter_options river kind = Raise (KeyError kind)) /\
    ((exists opts, update_parameter_options river kind = Ok opts)
     <-> In river declared_rivers /\ In kind dataset_kinds).
Proof.
  intros river kind.
  assert (A : ~ In river declared_rivers ->
              update_parameter_options river kind = Raise (KeyError river)).
  { intros H. unfold update_parameter_options, declared, getitem.
    rewrite (lookup_outside_keys custom_variables river H). reflexivity. }
  assert (B : In river declared_rivers -> ~ In kind dataset_kinds ->
              update_parameter_options river kind = Raise (KeyError kind)).
  { intros H1 H2.
    assert (E : exists schema,
               lookup custom_variables river = Some schema /\
               keys schema = dataset_kinds).
    { unfold declared_rivers in H1. simpl in H1.
      destruct H1 as [<- | [<- | [<- | []]]]; eexists; split; reflexivity. }
    destruct E as (schema & E & K).
    unfold update_parameter_options, declared, getitem. rewrite E.
    rewrite (lookup_outside_keys schema kind) by (rewrite K; exact H2).
    reflexivity. }
  split; [exact A | split; [exact B | ]].
  split.
  - intros [opts E].
    destruct (in_dec string_dec river declared_rivers) as [I | NI].
    + destruct (in_dec string_dec kind dataset_kinds) as [J | NJ]; [tauto | ].
      rewrite (B I NJ) in E. discriminate.
    + rewrite (A NI) in E. discriminate.
  - intros [I J]. each_declared I J; eexists; reflexivity.
Qed.

Section Traces.

Variables F T : Type.
Variable to_datetime_cell : list (Value F T) -> Value F T -> option T.
Variable to_numeric_cell : list (Value F T) -> Value F T -> option F.
Variable resample_mean : string -> DataFrame F T -> Result (DataFrame F T).
Variable Figure : Type.
Variable px_histogram : option (DataFrame F T) -> option string -> Result Figure.
Variable px_line : DataFrame F T -> Index F T -> option string -> Result Figure.

Local Abbreviation load := (load_data F T to_datetime_cell to_numeric_cell resample_mean).
Local Abbreviation display :=
  (update_content F T to_datetime_cell to_numeric_cell resample_mean
                  Figure px_histogram px_line).
Local Abbreviation resampled := (resample_all F T resample_mean).
Local Abbreviation init := (module_init F T to_datetime_cell to_numeric_cell resample_mean).

(** ** Every run of the loader *)

Lemma set_index_indexed (df d : DataFrame F T) :
  set_index F T "Timestamp" df = Ok d -> indexed_by_timestamp d.
Proof.
  unfold set_index. destruct (frame_get F T df "Timestamp") as [labels | e];
    [ | discriminate].
  intros H; inversion H; subst d. split.
  - eexists; reflexivity.
  - unfold columns; cbn [columns_data]. apply keys_drop_column.
Qed.

Lemma prepare_events a b :
  events (prepare F T to_datetime_cell to_numeric_cell resample_mean a b) = [].
Proof.
  unfold prepare.
  repeat match goal with
         | |- context [bind (lift ?r)] =>
             destruct r; [rewrite bind_lift_ok | rewrite bind_lift_raise; reflexivity]
         end.
  reflexivity.
Qed.

Lemma prepare_indexed a b l t :
  prepare F T to_datetime_cell to_numeric_cell resample_mean a b = (l, Ok t) ->
  exists raw cleaned,
    resampled raw cleaned = Ok t /\
    indexed_by_timestamp raw /\ indexed_by_timestamp cleaned.
Proof.
  unfold prepare.
  repeat match goal with
         | |- context [bind (lift ?r)] =>
             destruct r eqn:?; [rewrite bind_lift_ok | rewrite bind_lift_raise; discriminate]
         end.
  unfold lift. intros H; inversion H; subst.
  do 2 eexists. split; [reflexivity | ].
  split; eapply set_index_indexed; eassumption.
Qed.

Lemma read_csv_trace fs path usecols :
  exists r, read_csv F T fs path usecols = ([Open path], r) /\
            (fs path = NoSuchFile -> r = Raise (FileNotFoundError path)) /\
            (forall e, fs path = Unreadable e -> r = Raise e) /\
            (forall h rows, fs path = Csv h rows -> usecols_present h usecols = false ->
                            exists msg, r = Raise (ValueError msg)).
Proof.
  unfold read_csv. destruct (fs path) as [ | e | h rows] eqn:E;
    [ | | destruct (usecols_present h usecols) eqn:U];
    (eexists; split; [reflexivity | ]);
    (split; [intros X | split; [intros e' X | intros h' rows' X U']]);
    try discriminate X; try reflexivity.
  - congruence.
  - inversion X; subst. congruence.
  - eexists; reflexivity.
Qed.

(** The two reads: nothing opened and [KeyError], or the raw file opened
    and an exception, or both files opened. *)
Lemma read_both_trace fs river :
  (exists k, read_both F T fs river = ([], Raise (KeyError k))) \/
  (exists e, read_both F T fs river = ([Open (river ++ "_Raw.csv")], Raise e)) \/
  (exists r, read_both F T fs river
             = ([Open (river ++ "_Raw.csv"); Open (river ++ "_Cleaned.csv")], r)).
Proof.
  unfold read_both.
  destruct (declared river "raw") as [rc | e] eqn:D.
  - rewrite bind_lift_ok.
    destruct (read_csv_trace fs (river ++ "_Raw.csv")%string rc) as (r & E & _).
    rewrite E. destruct r as [a | e].
    + rewrite bind_ok.
      destruct (declared river "cleaned") as [cc | e] eqn:D'.
      * rewrite bind_lift_ok.
        destruct (read_csv_trace fs (river ++ "_Cleaned.csv")%string cc) as (r' & E' & _).
        rewrite E'. right. right. destruct r' as [b | e].
        -- rewrite bind_ok. eexists. reflexivity.
        -- rewrite bind_raise. eexists. reflexivity.
      * rewrite bind_lift_raise. right. left. eexists. reflexivity.
    + rewrite bind_raise. right. left. eexists. reflexivity.
  - rewrite bind_lift_raise. left.
    unfold declared, getitem in D.
    destruct (lookup custom_variables river) as [schema | ].
    + destruct (lookup schema "raw"); inversion D. eexists; reflexivity.
    + inversion D. eexists; reflexivity.
Qed.

(** Every run of the loader: it opens nothing, the raw file, or the raw
    and then the cleaned file; after that it raises, or prints the two
    diagnostic lines and returns [(None, None)], or returns what resampling
    two frames indexed by ["Timestamp"] returned. *)
Lemma load_data_trace fs river :
  exists opens prints r,
    load fs river = (opens ++ prints, r) /\
    (opens = [] \/ opens = [Open (river ++ "_Raw.csv")]
     \/ opens = [Open (river ++ "_Raw.csv"); Open (river ++ "_Cleaned.csv")]) /\
    ((prints = [] /\ exists e, r = Raise e) \/
     (opens <> [] /\ r = Ok [None; None] /\
      exists e, prints = [Print ("Error: " ++ str_exn e);
                          Print "Ensure CSV files are available in the correct directory!"]) \/
     (prints = [] /\
      exists a b t, r = Ok t /\ resampled a b = Ok t /\
                    indexed_by_timestamp a /\ indexed_by_timestamp b)).
Proof.
  unfold load_data, try_read.
  destruct (read_both_trace fs river) as [[k E] | [[e E] | [r E]]]; rewrite E.
  - exists [], [], (Raise (KeyError k)). split; [reflexivity | ].
    split; [auto | ]. left. split; [reflexivity | eauto].
  - rewrite bind_raise.
    destruct e;
      try (eexists _, [], _; split; [rewrite app_nil_r; reflexivity | ];
           split; [right; left; reflexivity | ];
           left; split; [reflexivity | eexists; reflexivity]).
    eexists [Open (river ++ "_Raw.csv")%string], _, _.
    split; [reflexivity | ]. split; [right; left; reflexivity | ].
    right. left. split; [discriminate | ]. split; [reflexivity | ].
    eexists; reflexivity.
  - destruct r as [[a b] | e].
    + rewrite bind_ok. cbn [events outcome ret fst snd app try_except_FileNotFoundError].
      rewrite bind_ok.
      destruct (prepare F T to_datetime_cell to_numeric_cell resample_mean a b)
        as [l [t | e]] eqn:P.
      * pose proof (prepare_events a b) as Ev. rewrite P in Ev. simpl in Ev. subst l.
        destruct (prepare_indexed a b [] t P) as (raw & cleaned & R & I1 & I2).
        eexists _, [], _. split; [reflexivity | ].
        split; [right; right; reflexivity | ].
        right. right. split; [reflexivity | ].
        exists raw, cleaned, t. auto.
      * pose proof (prepare_events a b) as Ev. rewrite P in Ev. simpl in Ev. subst l.
        eexists _, [], _. split; [reflexivity | ].
        split; [right; right; reflexivity | ].
        left. split; [reflexivity | eexists; reflexivity].
    + rewrite bind_raise.
      destruct e;
        try (eexists _, [], _; split; [rewrite app_nil_r; reflexivity | ];
             split; [right; right; reflexivity | ];
             left; split; [reflexivity | eexists; reflexivity]).
      eexists [Open (river ++ "_Raw.csv")%string; Open (river ++ "_Cleaned.csv")%string], _, _.
      split; [reflexivity | ]. split; [right; right; reflexivity | ].
      right. left. split; [discriminate | ]. split; [reflexivity | ].
      eexists; reflexivity.
Qed.

(** X3: whatever the river and the files, the loader opens at most two
    files, those of its river, the raw one first and the cleaned one only
    after it; it prints nothing, or after the reads the two diagnostic
    lines of its handler. *)
Theorem load_data_opens_own_files :
  forall fs river,
  exists opens prints,
    events (load fs river) = opens ++ prints /\
    (opens = [] \/ opens = [Open (river ++ "_Raw.csv")]
     \/ opens = [Open (river ++ "_Raw.csv"); Open (river ++ "_Cleaned.csv")]) /\
    (prints = [] \/
     exists e, prints = [Print ("Error: " ++ str_exn e);
                         Print "Ensure CSV files are available in the correct directory!"]).
Proof.
  intros fs river.
  destruct (load_data_trace fs river) as (opens & prints & r & E & O & C).
  exists opens, prints. rewrite E. split; [reflexivity | ]. split; [exact O | ].
  destruct C as [[P _] | [(_ & _ & e & P) | [P _]]]; eauto.
Qed.

(** X4: the loader prints exactly when it returns the pair
    [(None, None)]: a load that raises or returns tables is silent, and
    the pair is never returned without the diagnostic. *)
Theorem load_data_prints_iff_none_pair :
  forall fs river,
    (exists line, In (Print line) (events (load fs river)))
    <-> outcome (load fs river) = Ok [None; None].
Proof.
  intros fs river.
  destruct (load_data_trace fs river) as (opens & prints & r & E & O & C).
  rewrite E. cbn [events outcome fst snd].
  assert (NO : forall line, ~ In (Print line) opens).
  { intros line I.
    destruct O as [-> | [-> | ->]]; simpl in I;
      repeat (destruct I as [I | I]; [discriminate I | ]); exact I. }
  destruct C as [[-> [e ->]] | [(_ & -> & e & ->) | [-> (a & b & t & -> & R & _)]]].
  - rewrite app_nil_r. split; [intros [line I]; destruct (NO line I) | discriminate].
  - split; [reflexivity | ]. intros _. eexists. apply in_or_app. right. left. reflexivity.
  - rewrite app_nil_r. split; [intros [line I]; destruct (NO line I) | ].
    intros H. inversion H; subst t.
    destruct (resample_all_inv F T resample_mean _ _ _ R) as (? & ? & ? & ? & ? & ? & X & _).
    discriminate X.
Qed.

(** X5: for a river outside the declaration the loader raises [KeyError]
    before it opens any file; its handler does not catch it and nothing is
    printed; a triggered display passes the [KeyError] on. *)
Theorem load_data_undeclared_river :
  forall fs river,
    ~ In river declared_rivers ->
    load fs river = ([], Raise (KeyError river)) /\
    forall n dataset visualization time_range parameter,
      n <> 0 ->
      display fs n river dataset visualization time_range parameter
      = ([], Raise (KeyError river)).
Proof.
  intros fs river H.
  assert (L : load fs river = ([], Raise (KeyError river))).
  { unfold load_data, try_read, read_both, declared, getitem.
    rewrite (lookup_outside_keys custom_variables river H). reflexivity. }
  split; [exact L | ].
  intros n dataset visualization time_range parameter Hn.
  unfold update_content. destruct n; [contradiction | ]. cbn [Nat.eqb].
  rewrite L. reflexivity.
Qed.

(** X6: a file that lacks a declared column makes the loader raise the
    [ValueError] of [read_csv]: the handler does not catch it and nothing
    is printed.  When the raw file lacks the column the cleaned file is not
    opened. *)
Theorem load_data_missing_column :
  forall fs river rcols ccols,
    declared river "raw" = Ok rcols ->
    declared river "cleaned" = Ok ccols ->
    (forall hr rr,
        fs (river ++ "_Raw.csv")%string = Csv hr rr ->
        usecols_present hr rcols = false ->
        exists msg,
          load fs river = ([Open (river ++ "_Raw.csv")], Raise (ValueError msg))) /\
    (forall hr rr hc rc,
        fs (river ++ "_Raw.csv")%string = Csv hr rr ->
        usecols_present hr rcols = true ->
        fs (river ++ "_Cleaned.csv")%string = Csv hc rc ->
        usecols_present hc ccols = false ->
        exists msg,
          load fs river
          = ([Open (river ++ "_Raw.csv"); Open (river ++ "_Cleaned.csv")],
             Raise (ValueError msg))).
Proof.
  intros fs river rcols ccols D1 D2. split.
  - intros hr rr E U. unfold load_data, try_read, read_both.
    rewrite D1, bind_lift_ok. unfold read_csv. rewrite E, U.
    eexists. reflexivity.
  - intros hr rr hc rc E U E' U'. unfold load_data, try_read, read_both.
    rewrite D1, bind_lift_ok. unfold read_csv. rewrite E, U. simpl.
    rewrite D2. simpl. rewrite E', U'. eexists. reflexivity.
Qed.

(** X7: an exception of [read_csv] on the raw file other than
    [FileNotFoundError] leaves the loader as it is: only the raw file was
    opened and nothing is printed. *)
Theorem load_data_unreadable_raw :
  forall fs river rcols e,
    declared river "raw" = Ok rcols ->
    fs (river ++ "_Raw.csv")%string = Unreadable e ->
    (forall p, e <> FileNotFoundError p) ->
    load fs river = ([Open (river ++ "_Raw.csv")], Raise e).
Proof.
  intros fs river rcols e D E NF. unfold load_data, try_read, read_both.
  rewrite D, bind_lift_ok. unfold read_csv. rewrite E.
  destruct e; try reflexivity. destruct (NF filename eq_refl).
Qed.

(** X8: the loader and the display callback depend on the file system
    through the two files of the selected river only: on two file systems
    that agree on these two paths they perform the same events and return
    the same result. *)
Theorem load_data_reads_two_paths_only :
  forall fs fs' river,
    fs (river ++ "_Raw.csv")%string = fs' (river ++ "_Raw.csv")%string ->
    fs (river ++ "_Cleaned.csv")%string = fs' (river ++ "_Cleaned.csv")%string ->
    load fs river = load fs' river /\
    forall n dataset visualization time_range parameter,
      display fs n river dataset visualization time_range parameter
      = display fs' n river dataset visualization time_range parameter.
Proof.
  intros fs fs' river E1 E2.
  assert (L : load fs river = load fs' river).
  { unfold load_data, try_read, read_both, read_csv. rewrite E1, E2. reflexivity. }
  split; [exact L | ].
  intros n dataset visualization time_range parameter.
  unfold update_content. rewrite L. reflexivity.
Qed.

(** X9: a triggered display performs the events of one run of the loader
    and no other: both files are read again on every trigger, whatever the
    dataset, visualization, granularity and parameter, and the callback
    itself opens and prints nothing. *)
Theorem update_content_events_are_one_load :
  forall fs n river dataset visualization time_range parameter,
    n <> 0 ->
    events (display fs n river dataset visualization time_range parameter)
    = events (load fs river).
Proof.
  intros fs n river dataset visualization time_range parameter Hn.
  unfold update_content. destruct n; [contradiction | ]. cbn [Nat.eqb].
  destruct (load fs river) as [l [t | e]];
    [rewrite bind_ok | rewrite bind_raise; reflexivity].
  cbn [events fst]. rewrite <- (app_nil_r l) at 2. f_equal.
  repeat match goal with
         | |- context [bind (lift ?r)] =>
             destruct r; [rewrite bind_lift_ok; cbv beta | rewrite bind_lift_raise]
         | |- context [if String.eqb ?a ?b then _ else _] =>
             destruct (String.eqb a b)
         end; reflexivity.
Qed.

(** ** The views after a load that returned tables *)

(** A load whose first result is a table returned eight tables: two
    frames indexed by ["Timestamp"] and what the resampler made of them. *)
Lemma loaded_eight fs river ev raw rest :
  load fs river = (ev, Ok (Some raw :: rest)) ->
  exists cleaned d w m cd cw cm,
    rest = [Some cleaned; Some d; Some w; Some m; Some cd; Some cw; Some cm] /\
    indexed_by_timestamp raw /\ indexed_by_timestamp cleaned /\
    resample_mean "D" raw = Ok d /\
    resample_mean "W" raw = Ok w /\
    resample_mean "ME" raw = Ok m /\
    resample_mean "D" cleaned = Ok cd /\
    resample_mean "W" cleaned = Ok cw /\
    resample_mean "ME" cleaned = Ok cm.
Proof.
  intros L.
  destruct (load_data_trace fs river) as (opens & prints & r & E & _ & C).
  rewrite L in E. inversion E as [[Ev Er]]. clear E.
  destruct C as [[_ [e ->]] | [(_ & -> & _) | [_ (a & b & t & -> & R & Ia & Ib)]]];
    try discriminate Er.
  inversion Er as [Et]. clear Er.
  destruct (resample_all_inv F T resample_mean _ _ _ R)
    as (d & w & m & cd & cw & cm & X & Rd & Rw & Rm & Rcd & Rcw & Rcm).
  rewrite <- Et in X. inversion X; subst.
  exists b, d, w, m, cd, cw, cm. split; [reflexivity | ].
  split; [exact Ia | split; [exact Ib | repeat split; assumption]].
Qed.

Lemma reset_index_indexed (df : DataFrame F T) :
  indexed_by_timestamp df ->
  exists labels,
    index df = LabelIndex "Timestamp" labels /\
    reset_index F T df
    = Ok {| index := RangeIndex (List.length labels);
            columns_data := ("Timestamp", labels) :: columns_data df |}.
Proof.
  intros [[labels E] N]. exists labels. split; [exact E | ].
  unfold reset_index. rewrite E.
  destruct (mem "Timestamp" (columns df)) eqn:M; [ | reflexivity].
  apply mem_In in M. contradiction.
Qed.

Ltac after_load L :=
  unfold update_content;
  match goal with
  | Hn : ?n <> 0 |- _ => destruct n; [contradiction | ]
  end;
  cbn [Nat.eqb]; rewrite L, bind_ok.

Lemma histogram_view fs n river dataset time_range rule parameter ev raw cleaned rest :
  n <> 0 ->
  In (time_range, rule) granularities ->
  load fs river = (ev, Ok (Some raw :: Some cleaned :: rest)) ->
  display fs n river dataset "histogram" time_range parameter
  = (ev, match px_histogram
                 (Some (if String.eqb dataset "raw" then raw else cleaned))
                 parameter with
         | Ok fig => Ok (Some (Graph fig))
         | Raise e => Raise e
         end).
Proof.
  intros Hn Hg L.
  destruct (loaded_eight _ _ _ _ _ L)
    as (cleaned' & d & w & m & cd & cw & cm & E & _).
  inversion E; subst cleaned' rest. clear E.
  after_load L.
  unfold granularities in Hg. simpl in Hg.
  destruct (String.eqb dataset "raw");
    destruct Hg as [Hg | [Hg | [Hg | []]]]; inversion Hg; subst; simpl;
    match goal with
    | |- context [px_histogram ?a ?b] => destruct (px_histogram a b)
    end; simpl; rewrite app_nil_r; reflexivity.
Qed.

(** X10: once triggered and loaded, the histogram view is [px.histogram]
    applied to the table of the selected dataset as loaded, not resampled,
    with the parameter as x; every dataset value other than ["raw"]
    selects the cleaned table. *)
Theorem histogram_reads_selected_dataset :
  forall fs n river dataset time_range rule parameter ev raw cleaned rest,
    n <> 0 ->
    In (time_range, rule) granularities ->
    load fs river = (ev, Ok (Some raw :: Some cleaned :: rest)) ->
    display fs n river dataset "histogram" time_range parameter
    = (ev, match px_histogram
                   (Some (if String.eqb dataset "raw" then raw else cleaned))
                   parameter with
           | Ok fig => Ok (Some (Graph fig))
           | Raise e => Raise e
           end).
Proof.
  intros fs n river dataset time_range rule parameter ev raw cleaned rest.
  apply histogram_view.
Qed.

(** X11: the granularity is looked up before the view is chosen: once
    triggered and loaded, a granularity other than daily, weekly and
    monthly raises [KeyError] with that value as key for every
    visualization, the table and the histogram included. *)
Theorem update_content_unknown_granularity :
  forall fs n river dataset visualization time_range parameter ev raw rest,
    n <> 0 ->
    ~ In time_range (map fst granularities) ->
    load fs river = (ev, Ok (Some raw :: rest)) ->
    display fs n river dataset visualization time_range parameter
    = (ev, Raise (KeyError time_range)).
Proof.
  intros fs n river dataset visualization time_range parameter ev raw rest Hn Hg L.
  destruct (loaded_eight _ _ _ _ _ L)
    as (cleaned & d & w & m & cd & cw & cm & E & _).
  subst rest. after_load L.
  cbn [unpack8 lift]. rewrite bind_lift_ok. unfold getitem.
  rewrite lookup_outside_keys by exact Hg.
  rewrite bind_lift_raise. cbn [events outcome fst snd].
  rewrite app_nil_r. reflexivity.
Qed.

(** X12: once triggered and loaded with a granularity of the list, a
    visualization other than table, histogram and trend falls through the
    three branches: the callback returns [None] and no exception. *)
Theorem update_content_unknown_visualization :
  forall fs n river dataset visualization time_range rule parameter ev raw rest,
    n <> 0 ->
    In (time_range, rule) granularities ->
    ~ In visualization ["table"; "histogram"; "trend"] ->
    load fs river = (ev, Ok (Some raw :: rest)) ->
    display fs n river dataset visualization time_range parameter = (ev, Ok None).
Proof.
  intros fs n river dataset visualization time_range rule parameter ev raw rest
         Hn Hg Hv L.
  destruct (loaded_eight _ _ _ _ _ L)
    as (cleaned & d & w & m & cd & cw & cm & E & _).
  subst rest. after_load L.
  assert (V1 : String.eqb visualization "table" = false)
    by (apply String.eqb_neq; intros ->; apply Hv; simpl; auto).
  assert (V2 : String.eqb visualization "histogram" = false)
    by (apply String.eqb_neq; intros ->; apply Hv; simpl; auto).
  assert (V3 : String.eqb visualization "trend" = false)
    by (apply String.eqb_neq; intros ->; apply Hv; simpl; auto).
  rewrite V1, V2, V3.
  unfold granularities in Hg. simpl in Hg.
  destruct (String.eqb dataset "raw");
    destruct Hg as [Hg | [Hg | [Hg | []]]]; inversion Hg; subst; simpl;
    rewrite app_nil_r; reflexivity.
Qed.

Lemma table_view_grid fs n river dataset time_range rule parameter ev raw cleaned rest :
  n <> 0 ->
  In (time_range, rule) granularities ->
  load fs river = (ev, Ok (Some raw :: Some cleaned :: rest)) ->
  exists data cols,
    display fs n river dataset "table" time_range parameter
    = (ev, Ok (Some (DataTable data cols))) /\
    List.length data = nrows (if String.eqb dataset "raw" then raw else cleaned) /\
    map id cols = columns (if String.eqb dataset "raw" then raw else cleaned) /\
    Forall (fun record =>
              keys record
              = "Timestamp"
                :: columns (if String.eqb dataset "raw" then raw else cleaned))
           data.
Proof.
  intros Hn Hg L.
  destruct (loaded_eight _ _ _ _ _ L)
    as (cleaned' & d & w & m & cd & cw & cm & E & Ir & Ic & _).
  inversion E; subst cleaned' rest. clear E.
  assert (I : indexed_by_timestamp (if String.eqb dataset "raw" then raw else cleaned))
    by (destruct (String.eqb dataset "raw"); assumption).
  destruct (reset_index_indexed _ I) as (labels & Ei & R).
  after_load L.
  unfold granularities in Hg. simpl in Hg.
  assert (X : exists df_trend,
             getitem [("daily", Some d); ("weekly", Some w); ("monthly", Some m)]
                     time_range = Ok df_trend).
  { destruct Hg as [Hg | [Hg | [Hg | []]]]; inversion Hg; subst; eexists; reflexivity. }
  destruct X as [df_trend X].
  cbn [unpack8 lift]. rewrite bind_lift_ok.
  cbn [df_raw df_cleaned df_raw_daily df_raw_weekly df_raw_monthly].
  rewrite X, bind_lift_ok.
  cbn [String.eqb Ascii.eqb Bool.eqb].
  replace (if String.eqb dataset "raw" then Some raw else Some cleaned)
    with (Some (if String.eqb dataset "raw" then raw else cleaned))
    by (destruct (String.eqb dataset "raw"); reflexivity).
  cbn [attr]. rewrite !bind_lift_ok, R, bind_lift_ok.
  cbn [ret events outcome fst snd]. rewrite app_nil_r.
  eexists. eexists. split; [reflexivity | ].
  split; [ | split].
  - unfold to_dict_records, nrows. cbn [index]. rewrite length_map, length_seq, Ei.
    reflexivity.
  - rewrite map_map. cbn [id]. apply map_id.
  - unfold to_dict_records. apply Forall_forall. intros record J.
    apply in_map_iff in J. destruct J as (i & <- & _).
    cbn [columns_data]. unfold keys. rewrite map_map. reflexivity.
Qed.

(** X13: once triggered and loaded, the table view raises nothing: for
    either dataset its grid has one record per row of the selected table,
    every record has the key ["Timestamp"] followed by the table's columns,
    and the column list of the grid is the table's columns. *)
Theorem table_view_of_loaded_tables :
  forall fs n river dataset time_range rule parameter ev raw cleaned rest,
    n <> 0 ->
    In (time_range, rule) granularities ->
    load fs river = (ev, Ok (Some raw :: Some cleaned :: rest)) ->
    exists data cols,
      display fs n river dataset "table" time_range parameter
      = (ev, Ok (Some (DataTable data cols))) /\
      List.length data = nrows (if String.eqb dataset "raw" then raw else cleaned) /\
      map id cols = columns (if String.eqb dataset "raw" then raw else cleaned) /\
      Forall (fun record =>
                keys record
                = "Timestamp"
                  :: columns (if String.eqb dataset "raw" then raw else cleaned))
             data.
Proof.
  intros fs n river dataset time_range rule parameter ev raw cleaned rest.
  apply table_view_grid.
Qed.

(** X14: every visualization and granularity the layout offers is served:
    once triggered and loaded, with figure builders that do not raise, the
    callback returns a component, never [None] and never the [KeyError] of
    the granularity lookup. *)
Theorem layout_choices_render :
  forall fs n river dataset visualization time_range parameter ev raw cleaned rest,
    n <> 0 ->
    In visualization (choices visualization_selector) ->
    In time_range (choices time_range_selector) ->
    (forall df x, exists fig, px_histogram df x = Ok fig) ->
    (forall df i y, exists fig, px_line df i y = Ok fig) ->
    load fs river = (ev, Ok (Some raw :: Some cleaned :: rest)) ->
    exists component,
      display fs n river dataset visualization time_range parameter
      = (ev, Ok (Some component)).
Proof.
  intros fs n river dataset visualization time_range parameter ev raw cleaned rest
         Hn Hv Ht Ph Pl L.
  assert (G : exists rule, In (time_range, rule) granularities).
  { unfold choices in Ht. simpl in Ht.
    destruct Ht as [<- | [<- | [<- | []]]]; eexists; simpl; eauto. }
  destruct G as [rule G].
  unfold choices in Hv. simpl in Hv.
  destruct Hv as [<- | [<- | [<- | []]]].
  - destruct (table_view_grid fs n river dataset time_range rule
                parameter ev raw cleaned rest Hn G L) as (data & cols & E & _).
    eexists. exact E.
  - rewrite (histogram_view fs n river dataset time_range rule
               parameter ev raw cleaned rest Hn G L).
    destruct (Ph (Some (if String.eqb dataset "raw" then raw else cleaned)) parameter)
      as [fig ->].
    eexists. reflexivity.
  - destruct (loaded_eight _ _ _ _ _ L)
      as (cleaned' & d & w & m & cd & cw & cm & E & _ & _ & Rd & Rw & Rm & _).
    inversion E; subst cleaned' rest. clear E.
    after_load L.
    unfold granularities in G. simpl in G.
    destruct G as [G | [G | [G | []]]]; inversion G; subst; simpl;
      match goal with
      | |- context [px_line ?a ?b ?c] => destruct (Pl a b c) as [fig ->]
      end; simpl; rewrite app_nil_r; eexists; reflexivity.
Qed.

(** ** The table view against the files *)

(** The grid records of a frame that holds a file's records coerced and is
    indexed by ["Timestamp"]. *)
Lemma records_show_file tname usecols header rows df :
  coerced_from F T to_datetime_cell to_numeric_cell tname usecols header rows df ->
  indexed_by_timestamp df ->
  exists flat,
    reset_index F T df = Ok flat /\
    shows_file_rows to_datetime_cell to_numeric_cell tname usecols header rows
                    (to_dict_records F T flat).
Proof.
  intros (Hn & _ & Ht & Hc) I.
  destruct (reset_index_indexed df I) as (labels & Ei & R).
  eexists. split; [exact R | ].
  assert (Len : List.length labels = List.length rows).
  { rewrite <- Hn. unfold nrows. rewrite Ei. reflexivity. }
  unfold shows_file_rows, to_dict_records, nrows. cbn [index columns_data].
  split; [rewrite length_map, length_seq; exact Len | ].
  intros i row Hi.
  assert (Lt : i < List.length labels).
  { rewrite Len. apply nth_error_Some. rewrite Hi. discriminate. }
  eexists. split.
  - rewrite nth_error_map, nth_error_seq.
    apply Nat.ltb_lt in Lt. rewrite Lt. reflexivity.
  - split.
    + intros j Hj.
      destruct (Ht j i row Hj Hi) as (labels' & Ei' & Hl & _).
      rewrite Ei in Ei'. inversion Ei'; subst labels'.
      cbn [map lookup fst snd String.eqb Ascii.eqb Bool.eqb].
      rewrite (nth_error_nth _ _ _ Hl). reflexivity.
    + intros j c Hj NE M.
      destruct (Hc j c i row Hj NE M Hi) as (cells & Hl & Hcell & _).
      assert (NT : "Timestamp" <> c).
      { intros <-. apply (proj2 I). eapply lookup_in_keys. exact Hl. }
      cbn [map lookup fst snd].
      destruct (String.eqb_spec "Timestamp" c) as [X | _]; [contradiction | ].
      rewrite (lookup_map (fun cells => nth i cells (Num None))), Hl.
      cbn [option_map]. rewrite (nth_error_nth _ _ _ Hcell). reflexivity.
Qed.

(** X15: for a declared river whose files hold the declared columns and
    whose load returned, the grid of the table view shows the file of the
    selected dataset record by record and in order: under ["Timestamp"] the
    parsed time field, under every other declared column its parsed
    field. *)
Theorem table_view_shows_file_records :
  forall fs n river time_range rule parameter rcols ccols hr rr hc rc t,
    n <> 0 ->
    In (time_range, rule) granularities ->
    declared river "raw" = Ok rcols ->
    declared river "cleaned" = Ok ccols ->
    fs (river ++ "_Raw.csv")%string = Csv hr rr ->
    fs (river ++ "_Cleaned.csv")%string = Csv hc rc ->
    NoDup hr -> NoDup hc ->
    usecols_present hr rcols = true ->
    usecols_present hc ccols = true ->
    outcome (load fs river) = Ok t ->
    (exists data cols,
        outcome (display fs n river "raw" "table" time_range parameter)
        = Ok (Some (DataTable data cols)) /\
        shows_file_rows to_datetime_cell to_numeric_cell "time" rcols hr rr data) /\
    (exists data cols,
        outcome (display fs n river "cleaned" "table" time_range parameter)
        = Ok (Some (DataTable data cols)) /\
        shows_file_rows to_datetime_cell to_numeric_cell "Timestamp" ccols hc rc data).
Proof.
  intros fs n river time_range rule parameter rcols ccols hr rr hc rc t
         Hn Hg D1 D2 E1 E2 N1 N2 U1 U2 R.
  destruct (load_data_ok F T to_datetime_cell to_numeric_cell resample_mean
              fs river rcols ccols hr rr hc rc D1 D2 E1 E2 N1 N2 U1 U2)
    as (t1 & t2 & L1 & L2 & K1 & K2 & L).
  rewrite L in R. cbn [outcome snd] in R. rewrite R in L.
  destruct (declared_time_first _ _ _ D1) as (rest1 & C1 & _ & _).
  destruct (declared_time_first _ _ _ D2) as (rest2 & C2 & _ & _).
  simpl in C1, C2. subst rcols ccols.
  pose proof (coerced_from_file F T to_datetime_cell to_numeric_cell
                "time" rest1 hr rr t1 N1 L1) as F1.
  pose proof (coerced_from_file F T to_datetime_cell to_numeric_cell
                "Timestamp" rest2 hc rc t2 N2 L2) as F2.
  set (raw := coerced F T to_datetime_cell to_numeric_cell t1
                (drop_column F T "time"
                   (select_columns F T ("time" :: rest1) 0 hr rr))) in *.
  set (cleaned := coerced F T to_datetime_cell to_numeric_cell t2
                    (drop_column F T "Timestamp"
                       (select_columns F T ("Timestamp" :: rest2) 0 hc rc))) in *.
  destruct (resample_all_inv F T resample_mean _ _ _ R)
    as (d & w & m & cd & cw & cm & Et & _).
  subst t.
  destruct (loaded_eight _ _ _ _ _ L) as (? & ? & ? & ? & ? & ? & ? & X & Ir & Ic & _).
  inversion X; subst. clear X.
  destruct (records_show_file _ _ _ _ _ F1 Ir) as (flat1 & R1 & S1).
  destruct (records_show_file _ _ _ _ _ F2 Ic) as (flat2 & R2 & S2).
  split.
  - rewrite (table_view F T to_datetime_cell to_numeric_cell resample_mean
               Figure px_histogram px_line
               fs n river "raw" time_range rule parameter _ raw cleaned _ Hn Hg L R).
    cbn [String.eqb Ascii.eqb Bool.eqb outcome snd]. rewrite R1.
    eexists. eexists. split; [reflexivity | exact S1].
  - rewrite (table_view F T to_datetime_cell to_numeric_cell resample_mean
               Figure px_histogram px_line
               fs n river "cleaned" time_range rule parameter _ raw cleaned _ Hn Hg L R).
    cbn [String.eqb Ascii.eqb Bool.eqb outcome snd]. rewrite R2.
    eexists. eexists. split; [reflexivity | exact S2].
Qed.

(** ** The parameter options against the loaded columns *)

Lemma keys_drop_column_filter (d : dict (list (Value F T))) k :
  keys (drop_column F T k d) = filter (fun c => negb (String.eqb c k)) (keys d).
Proof.
  unfold drop_column.
  induction d as [ | [c v] d IH]; simpl; [reflexivity | ].
  destruct (String.eqb c k); simpl; rewrite IH; reflexivity.
Qed.

Lemma filter_declared_rest t rest (h : list string) :
  ~ In t rest ->
  filter (fun c => negb (String.eqb c t)) (filter (fun c => mem c (t :: rest)) h)
  = filter (fun c => mem c rest) h.
Proof.
  intros NI. induction h as [ | c h IH]; cbn [filter]; [reflexivity | ].
  assert (M : mem c (t :: rest) = String.eqb c t || mem c rest) by reflexivity.
  rewrite M. clear M.
  destruct (String.eqb_spec c t) as [E | NE]; cbn [orb].
  - cbn [filter]. rewrite E at 1. rewrite String.eqb_refl. cbn [negb].
    destruct (mem c rest) eqn:M2; [ | exact IH].
    apply mem_In in M2. rewrite E in M2. contradiction.
  - destruct (mem c rest); [ | exact IH].
    cbn [filter]. destruct (String.eqb_spec c t); [contradiction | ].
    cbn [negb]. rewrite IH. reflexivity.
Qed.

(** The columns of a loaded frame: the names of the header that are
    declared and are not the time column, in the order of the header. *)
Lemma columns_of_loaded tname rest header rows tcol :
  ~ In tname rest ->
  columns (coerced F T to_datetime_cell to_numeric_cell tcol
             (drop_column F T tname
                (select_columns F T (tname :: rest) 0 header rows)))
  = filter (fun c => mem c rest) header.
Proof.
  intros NI. rewrite columns_coerced, keys_drop_column_filter, keys_select_columns.
  apply filter_declared_rest. exact NI.
Qed.

Lemma declared_rest_in_header tname rest header :
  NoDup header -> NoDup (tname :: rest) ->
  usecols_present header (tname :: rest) = true ->
  Permutation rest (filter (fun c => mem c rest) header).
Proof.
  intros Nh Nr U. apply NoDup_Permutation.
  - inversion Nr; assumption.
  - apply NoDup_filter. exact Nh.
  - intros c. rewrite filter_In, mem_In. split; [ | tauto].
    intros I. split; [ | exact I].
    unfold usecols_present in U. rewrite forallb_forall in U.
    apply mem_In. apply U. right. exact I.
Qed.

Lemma declared_cleaned_within_raw river rcols ccols :
  declared river "raw" = Ok rcols ->
  declared river "cleaned" = Ok ccols ->
  incl (tl ccols) (tl rcols).
Proof.
  unfold declared, getitem, custom_variables. cbn [lookup].
  destruct (String.eqb "KualaSG" river);
    [ | destruct (String.eqb "Bilut" river);
        [ | destruct (String.eqb "Kechau" river);
            [ | intros H; discriminate H]]];
    simpl; intros H1 H2; inversion H1; inversion H2; subst;
    intros c I; simpl in I |- *; intuition.
Qed.

(** X16: for a declared river whose files hold the declared columns, the
    columns of each loaded table are the declared names other than the time
    column, in the order of the file's header; the parameters that
    [update_parameter_options] offers for a dataset are these columns up to
    order. *)
Theorem parameter_options_match_loaded_columns :
  forall fs river rcols ccols hr rr hc rc,
    declared river "raw" = Ok rcols ->
    declared river "cleaned" = Ok ccols ->
    fs (river ++ "_Raw.csv")%string = Csv hr rr ->
    fs (river ++ "_Cleaned.csv")%string = Csv hc rc ->
    NoDup hr -> NoDup hc ->
    usecols_present hr rcols = true ->
    usecols_present hc ccols = true ->
    exists raw cleaned,
      load fs river
      = ([Open (river ++ "_Raw.csv"); Open (river ++ "_Cleaned.csv")],
         resampled raw cleaned) /\
      columns raw = filter (fun c => mem c (tl rcols)) hr /\
      columns cleaned = filter (fun c => mem c (tl ccols)) hc /\
      (forall opts,
          update_parameter_options river "raw" = Ok opts ->
          Permutation (map value opts) (columns raw)) /\
      (forall opts,
          update_parameter_options river "cleaned" = Ok opts ->
          Permutation (map value opts) (columns cleaned)).
Proof.
  intros fs river rcols ccols hr rr hc rc D1 D2 E1 E2 N1 N2 U1 U2.
  destruct (load_data_ok F T to_datetime_cell to_numeric_cell resample_mean
              fs river rcols ccols hr rr hc rc D1 D2 E1 E2 N1 N2 U1 U2)
    as (t1 & t2 & _ & _ & _ & _ & L).
  destruct (declared_time_first _ _ _ D1) as (rest1 & C1 & _ & Nr1).
  destruct (declared_time_first _ _ _ D2) as (rest2 & C2 & _ & Nr2).
  simpl in C1, C2. subst rcols ccols.
  assert (NI1 : ~ In "time" rest1) by (inversion Nr1; assumption).
  assert (NI2 : ~ In "Timestamp" rest2) by (inversion Nr2; assumption).
  eexists. eexists. split; [exact L | ].
  rewrite !columns_of_loaded by assumption. cbn [tl].
  split; [reflexivity | split; [reflexivity | ]].
  assert (V : forall l : list string,
             map value (map (fun p => {| label := p; value := p |}) l) = l)
    by (intros l; rewrite map_map; apply map_id).
  split; intros opts O; unfold update_parameter_options in O.
  - rewrite D1 in O. inversion O. cbn [tl]. rewrite V.
    apply (declared_rest_in_header "time" rest1 hr); assumption.
  - rewrite D2 in O. inversion O. cbn [tl]. rewrite V.
    apply (declared_rest_in_header "Timestamp" rest2 hc); assumption.
Qed.

(** X17: the trend view reads the raw table whatever the dataset: for a
    declared river whose files hold the declared columns, every parameter
    offered for the cleaned dataset is also a column of the loaded raw
    table. *)
Theorem cleaned_options_are_raw_columns :
  forall fs river rcols ccols hr rr hc rc,
    declared river "raw" = Ok rcols ->
    declared river "cleaned" = Ok ccols ->
    fs (river ++ "_Raw.csv")%string = Csv hr rr ->
    fs (river ++ "_Cleaned.csv")%string = Csv hc rc ->
    NoDup hr -> NoDup hc ->
    usecols_present hr rcols = true ->
    usecols_present hc ccols = true ->
    exists raw cleaned,
      load fs river
      = ([Open (river ++ "_Raw.csv"); Open (river ++ "_Cleaned.csv")],
         resampled raw cleaned) /\
      forall opts,
        update_parameter_options river "cleaned" = Ok opts ->
        incl (map value opts) (columns raw).
Proof.
  intros fs river rcols ccols hr rr hc rc D1 D2 E1 E2 N1 N2 U1 U2.
  destruct (load_data_ok F T to_datetime_cell to_numeric_cell resample_mean
              fs river rcols ccols hr rr hc rc D1 D2 E1 E2 N1 N2 U1 U2)
    as (t1 & t2 & _ & _ & _ & _ & L).
  pose proof (declared_cleaned_within_raw river rcols ccols D1 D2) as Inc.
  destruct (declared_time_first _ _ _ D1) as (rest1 & C1 & _ & Nr1).
  simpl in C1. subst rcols.
  assert (NI1 : ~ In "time" rest1) by (inversion Nr1; assumption).
  eexists. eexists. split; [exact L | ].
  intros opts O p I. unfold update_parameter_options in O.
  rewrite D2 in O. inversion O; subst opts. clear O.
  rewrite map_map in I. cbn [value] in I. rewrite map_id in I.
  apply Inc in I. cbn [tl] in I.
  rewrite columns_of_loaded by exact NI1.
  apply filter_In. split; [ | apply mem_In; exact I].
  unfold usecols_present in U1. rewrite forallb_forall in U1.
  apply mem_In. apply U1. right. exact I.
Qed.

(** ** The frame operations on any frame *)

(** X18: on a frame with distinct column names, putting a column in the
    index and resetting the index loses nothing: [reset_index] after
    [set_index] never raises, the column comes back as the first column
    followed by the other columns in their order, so the columns are those
    of the frame up to order and still distinct, the row count is kept, and
    every column is found with the cells it had. *)
Theorem reset_index_after_set_index :
  forall (df d : DataFrame F T) col,
    NoDup (columns df) ->
    set_index F T col df = Ok d ->
    exists flat,
      reset_index F T d = Ok flat /\
      columns flat
      = col :: filter (fun c => negb (String.eqb c col)) (columns df) /\
      Permutation (columns flat) (columns df) /\
      NoDup (columns flat) /\
      nrows flat = nrows d /\
      forall c, lookup (columns_data flat) c = lookup (columns_data df) c.
Proof.
  intros df d col Nd S. unfold set_index, frame_get, getitem in S.
  destruct (lookup (columns_data df) col) as [labels | ] eqn:E; [ | discriminate].
  inversion S; subst d. clear S.
  assert (Ic : In col (columns df)) by (eapply lookup_in_keys; exact E).
  assert (Nf : NoDup (col :: filter (fun c => negb (String.eqb c col)) (columns df))).
  { apply NoDup_cons.
    - intros I. apply filter_In in I. destruct I as [_ I].
      rewrite String.eqb_refl in I. discriminate.
    - apply NoDup_filter. exact Nd. }
  unfold reset_index. cbn [index].
  destruct (mem col (columns {| index := LabelIndex col labels;
                                columns_data := drop_column F T col (columns_data df) |}))
    eqn:M.
  - apply mem_In in M. unfold columns in M. cbn [columns_data] in M.
    apply keys_drop_column in M. contradiction.
  - eexists. split; [reflexivity | ]. cbn [columns_data].
    assert (C : columns {| index := RangeIndex (List.length labels);
                           columns_data :=
                             (col, labels) :: drop_column F T col (columns_data df) |}
                = col :: filter (fun c => negb (String.eqb c col)) (columns df)).
    { unfold columns. cbn [columns_data keys map fst].
      f_equal. apply keys_drop_column_filter. }
    split; [exact C | ]. rewrite C.
    split; [ | split; [exact Nf | ]].
    + apply NoDup_Permutation; [exact Nf | exact Nd | ].
      intros c. split.
      * intros [<- | I]; [exact Ic | ]. apply filter_In in I. exact (proj1 I).
      * intros I. destruct (String.eqb_spec c col) as [-> | NE]; [left; reflexivity | ].
        right. apply filter_In. split; [exact I | ].
        destruct (String.eqb_spec c col); [contradiction | reflexivity].
    + unfold nrows. cbn [index columns_data].
      split; [reflexivity | ].
      intros c. cbn [lookup].
      destruct (String.eqb_spec col c) as [<- | NE]; [symmetry; exact E | ].
      apply lookup_drop_column. congruence.
Qed.

(** X19: on a frame with distinct column names the numeric coercion loop
    of lines 43-46, run over the frame's columns, raises nothing; it keeps
    the index, the column names and their order, leaves the ["Timestamp"]
    column as it was and makes every other column its numeric coercion. *)
Theorem coerce_numeric_keeps_shape :
  forall df : DataFrame F T,
    NoDup (columns df) ->
    exists df',
      coerce_numeric F T to_numeric_cell (columns df) df = Ok df' /\
      index df' = index df /\
      columns df' = columns df /\
      frame_get F T df' "Timestamp" = frame_get F T df "Timestamp" /\
      forall c cells,
        c <> "Timestamp" ->
        lookup (columns_data df) c = Some cells ->
        lookup (columns_data df') c = Some (to_numeric F T to_numeric_cell cells).
Proof.
  intros [i d] Nd. unfold columns in *. cbn [columns_data] in *.
  pose proof (coerce_numeric_loop F T (fun _ _ => None) to_numeric_cell
                (fun _ frame => Ok frame) d [] i Nd) as R.
  cbn [app] in R.
  eexists. split; [exact R | ].
  unfold frame_get, getitem. cbn [index columns_data].
  split; [reflexivity | ].
  assert (G : forall c,
             lookup (map (fun cv : string * list (Value F T) =>
                            if String.eqb (fst cv) "Timestamp" then cv
                            else (fst cv, to_numeric F T to_numeric_cell (snd cv))) d) c
             = if String.eqb c "Timestamp" then lookup d c
               else option_map (to_numeric F T to_numeric_cell) (lookup d c)).
  { intros c. clear R Nd. induction d as [ | [k v] d IH]; cbn [map lookup fst snd].
    - destruct (String.eqb c "Timestamp"); reflexivity.
    - destruct (String.eqb_spec k "Timestamp") as [-> | NK]; cbn [lookup fst snd].
      + destruct (String.eqb_spec "Timestamp" c) as [<- | NC].
        * rewrite String.eqb_refl. reflexivity.
        * exact IH.
      + destruct (String.eqb_spec k c) as [<- | NC].
        * destruct (String.eqb_spec k "Timestamp"); [contradiction | reflexivity].
        * exact IH. }
  split.
  - unfold keys. rewrite map_map. apply map_ext.
    intros [k v]. cbn [fst snd]. destruct (String.eqb k "Timestamp"); reflexivity.
  - split.
    + rewrite G, String.eqb_refl. reflexivity.
    + intros c cells NE Lc. rewrite G, Lc.
      destruct (String.eqb_spec c "Timestamp"); [contradiction | reflexivity].
Qed.

(** X20: the renaming of line 37 on any frame: the index and the cells are
    untouched, every name that holds "time" in any letter case becomes
    ["Timestamp"] and every other name stays, in place; afterwards the only
    time-like column name is ["Timestamp"], and renaming again changes
    nothing. *)
Theorem rename_time_any_frame :
  forall df : DataFrame F T,
    index (rename_time F T df) = index df /\
    map snd (columns_data (rename_time F T df)) = map snd (columns_data df) /\
    columns (rename_time F T df)
    = map (fun c => if time_like c then "Timestamp" else c) (columns df) /\
    (forall c, In c (columns (rename_time F T df)) -> time_like c = true ->
               c = "Timestamp") /\
    rename_time F T (rename_time F T df) = rename_time F T df.
Proof.
  intros [i d]. unfold rename_time, columns, keys. cbn [index columns_data].
  split; [reflexivity | ].
  split; [rewrite map_map; reflexivity | ].
  split; [rewrite !map_map; reflexivity | ].
  split.
  - intros c I Tc. rewrite map_map in I. apply in_map_iff in I.
    destruct I as ([k v] & E & _). cbn [fst snd] in E.
    destruct (time_like k) eqn:Tk; [symmetry; exact E | ].
    subst c. rewrite Tk in Tc. discriminate.
  - f_equal. rewrite map_map. apply map_ext. intros [k v]. cbn [fst snd].
    destruct (time_like k) eqn:Tk; [reflexivity | rewrite Tk; reflexivity].
Qed.

(** ** The module-level load *)

(** X21: the eight names of lines 64 and 156 are bound in the order of the
    [return] of line 60: after a load that returned tables, the
    module-level unpacking binds [df_raw] and [df_cleaned] to the two
    loaded tables, both indexed by ["Timestamp"], and the six other names
    to the daily, weekly and monthly resampling of the raw and then of the
    cleaned table.  After a load that returned [(None, None)] the
    unpacking raises [ValueError]. *)
Theorem module_init_binds_in_order :
  forall fs ev,
    (forall raw rest,
        load fs selected_river = (ev, Ok (Some raw :: rest)) ->
        exists u cleaned d w m cd cw cm,
          init fs = (ev, Ok u) /\
          df_raw F T u = Some raw /\ df_cleaned F T u = Some cleaned /\
          indexed_by_timestamp raw /\ indexed_by_timestamp cleaned /\
          df_raw_daily F T u = Some d /\ resample_mean "D" raw = Ok d /\
          df_raw_weekly F T u = Some w /\ resample_mean "W" raw = Ok w /\
          df_raw_monthly F T u = Some m /\ resample_mean "ME" raw = Ok m /\
          df_cleaned_daily F T u = Some cd /\ resample_mean "D" cleaned = Ok cd /\
          df_cleaned_weekly F T u = Some cw /\ resample_mean "W" cleaned = Ok cw /\
          df_cleaned_monthly F T u = Some cm /\ resample_mean "ME" cleaned = Ok cm) /\
    (load fs selected_river = (ev, Ok [None; None]) ->
     init fs = (ev, Raise unpack_error)).
Proof.
  intros fs ev. split.
  - intros raw rest L.
    destruct (loaded_eight _ _ _ _ _ L)
      as (cleaned & d & w & m & cd & cw & cm & E & Ir & Ic & Rd & Rw & Rm & Rcd & Rcw & Rcm).
    subst rest. unfold module_init. rewrite L, bind_ok.
    cbn [unpack8 lift events outcome fst snd]. rewrite app_nil_r.
    eexists _, cleaned, d, w, m, cd, cw, cm.
    split; [reflexivity | ].
    cbn [df_raw df_cleaned df_raw_daily df_raw_weekly df_raw_monthly
         df_cleaned_daily df_cleaned_weekly df_cleaned_monthly].
    repeat (split; [first [reflexivity | assumption] | ]). assumption.
  - intros L. unfold module_init. rewrite L, bind_ok.
    cbn. rewrite app_nil_r. reflexivity.
Qed.

End Traces.

(** ** The further properties on concrete files *)

Lemma update_parameter_options_key_errors_witness :
  update_parameter_options "Pahang" "raw" = Raise (KeyError "Pahang") /\
  update_parameter_options "Bilut" "filtered" = Raise (KeyError "filtered").
Proof.
  split.
  - apply (proj1 (update_parameter_options_key_errors "Pahang" "raw")).
    simpl. intuition discriminate.
  - apply (proj1 (proj2 (update_parameter_options_key_errors "Bilut" "filtered"))).
    + simpl. auto.
    + simpl. intuition discriminate.
Defined.

Lemma load_data_undeclared_river_witness :
  Sample.load Sample.fs "Pahang" = ([], Raise (KeyError "Pahang")) /\
  Sample.display Sample.fs 1 "Pahang" "raw" "table" "daily" None
  = ([], Raise (KeyError "Pahang")).
Proof.
  destruct (load_data_undeclared_river
              N N Sample.to_datetime_cell Sample.to_numeric_cell Sample.resample_mean
              Sample.Fig Sample.px_histogram Sample.px_line
              Sample.fs "Pahang" ltac:(simpl; intuition discriminate))
    as [L D].
  split; [exact L | ].
  exact (D 1 "raw" "table" "daily" None ltac:(discriminate)).
Defined.

Lemma load_data_missing_column_witness :
  exists msg,
    Sample.load Sample.fs_short "KualaSG"
    = ([Open "KualaSG_Raw.csv"], Raise (ValueError msg)).
Proof.
  exact (proj1 (load_data_missing_column
                  N N Sample.to_datetime_cell Sample.to_numeric_cell Sample.resample_mean
                  Sample.fs_short "KualaSG" _ _ eq_refl eq_refl)
               ["time"; "PH_Sensor"] [["20240101"; "7"]] eq_refl eq_refl).
Defined.

Lemma load_data_unreadable_raw_witness :
  Sample.load Sample.fs_broken "KualaSG"
  = ([Open "KualaSG_Raw.csv"], Raise (ParserError "Error tokenizing data")).
Proof.
  apply (load_data_unreadable_raw
           N N Sample.to_datetime_cell Sample.to_numeric_cell Sample.resample_mean
           Sample.fs_broken "KualaSG" _ _ eq_refl eq_refl).
  intros p. discriminate.
Defined.

Lemma load_data_reads_two_paths_only_witness :
  Sample.fs "Bilut_Raw.csv" <> Sample.fs_more "Bilut_Raw.csv" /\
  Sample.load Sample.fs "KualaSG" = Sample.load Sample.fs_more "KualaSG" /\
  Sample.display Sample.fs 1 "KualaSG" "raw" "table" "daily" None
  = Sample.display Sample.fs_more 1 "KualaSG" "raw" "table" "daily" None.
Proof.
  split; [discriminate | ].
  destruct (load_data_reads_two_paths_only
              N N Sample.to_datetime_cell Sample.to_numeric_cell Sample.resample_mean
              Sample.Fig Sample.px_histogram Sample.px_line
              Sample.fs Sample.fs_more "KualaSG" eq_refl eq_refl)
    as [L D].
  split; [exact L | exact (D 1 "raw" "table" "daily" None)].
Defined.

Lemma update_content_events_are_one_load_witness :
  events (Sample.display Sample.fs 1 "Kechau" "cleaned" "histogram" "weekly"
                         (Some "ORP_Sensor"))
  = events (Sample.load Sample.fs "Kechau").
Proof.
  apply (update_content_events_are_one_load
           N N Sample.to_datetime_cell Sample.to_numeric_cell Sample.resample_mean
           Sample.Fig Sample.px_histogram Sample.px_line).
  discriminate.
Defined.

Lemma histogram_reads_selected_dataset_witness :
  exists ev raw cleaned rest,
    Sample.load Sample.fs "KualaSG" = (ev, Ok (Some raw :: Some cleaned :: rest)) /\
    Sample.display Sample.fs 1 "KualaSG" "cleaned" "histogram" "daily" (Some "PH_Sensor")
    = (ev, Ok (Some (Graph (Sample.Histogram (Some cleaned) (Some "PH_Sensor"))))).
Proof.
  assert (L : Sample.load Sample.fs "KualaSG" = (_, Ok (Some _ :: Some _ :: _)))
    by (vm_compute; reflexivity).
  do 4 eexists. split; [exact L | ].
  exact (histogram_reads_selected_dataset
           N N Sample.to_datetime_cell Sample.to_numeric_cell Sample.resample_mean
           Sample.Fig Sample.px_histogram Sample.px_line
           Sample.fs 1 "KualaSG" "cleaned" "daily" "D" (Some "PH_Sensor")
           _ _ _ _ ltac:(discriminate) ltac:(left; reflexivity) L).
Defined.

Lemma update_content_unknown_granularity_witness :
  exists ev,
    Sample.display Sample.fs 1 "KualaSG" "raw" "table" "yearly" None
    = (ev, Raise (KeyError "yearly")).
Proof.
  assert (L : Sample.load Sample.fs "KualaSG" = (_, Ok (Some _ :: _)))
    by (vm_compute; reflexivity).
  eexists.
  exact (update_content_unknown_granularity
           N N Sample.to_datetime_cell Sample.to_numeric_cell Sample.resample_mean
           Sample.Fig Sample.px_histogram Sample.px_line
           Sample.fs 1 "KualaSG" "raw" "table" "yearly" None
           _ _ _ ltac:(discriminate) ltac:(simpl; intuition discriminate) L).
Defined.

Lemma update_content_unknown_visualization_witness :
  exists ev,
    Sample.display Sample.fs 1 "KualaSG" "raw" "map" "daily" None = (ev, Ok None).
Proof.
  assert (L : Sample.load Sample.fs "KualaSG" = (_, Ok (Some _ :: _)))
    by (vm_compute; reflexivity).
  eexists.
  exact (update_content_unknown_visualization
           N N Sample.to_datetime_cell Sample.to_numeric_cell Sample.resample_mean
           Sample.Fig Sample.px_histogram Sample.px_line
           Sample.fs 1 "KualaSG" "raw" "map" "daily" "D" None
           _ _ _ ltac:(discriminate) ltac:(left; reflexivity)
           ltac:(simpl; intuition discriminate) L).
Defined.

Lemma table_view_of_loaded_tables_witness :
  exists ev raw cleaned data cols,
    Sample.display Sample.fs 1 "KualaSG" "cleaned" "table" "daily" None
    = (ev, Ok (Some (DataTable data cols))) /\
    List.length data = nrows cleaned /\
    map id cols = columns cleaned /\
    Forall (fun record => keys record = "Timestamp" :: columns cleaned) data /\
    exists rest, Sample.load Sample.fs "KualaSG"
                 = (ev, Ok (Some raw :: Some cleaned :: rest)).
Proof.
  assert (L : Sample.load Sample.fs "KualaSG" = (_, Ok (Some _ :: Some _ :: _)))
    by (vm_compute; reflexivity).
  destruct (table_view_of_loaded_tables
              N N Sample.to_datetime_cell Sample.to_numeric_cell Sample.resample_mean
              Sample.Fig Sample.px_histogram Sample.px_line
              Sample.fs 1 "KualaSG" "cleaned" "daily" "D" None
              _ _ _ _ ltac:(discriminate) ltac:(left; reflexivity) L)
    as (data & cols & E & A & B & C).
  do 3 eexists. exists data, cols.
  split; [exact E | ]. split; [exact A | ]. split; [exact B | ].
  split; [exact C | ]. eexists. exact L.
Defined.

Lemma layout_choices_render_witness :
  exists ev component,
    Sample.display Sample.fs 1 "KualaSG" "raw" "trend" "monthly" (Some "DO_Sensor")
    = (ev, Ok (Some component)).
Proof.
  assert (L : Sample.load Sample.fs "KualaSG" = (_, Ok (Some _ :: Some _ :: _)))
    by (vm_compute; reflexivity).
  eexists.
  exact (layout_choices_render
           N N Sample.to_datetime_cell Sample.to_numeric_cell Sample.resample_mean
           Sample.Fig Sample.px_histogram Sample.px_line
           Sample.fs 1 "KualaSG" "raw" "trend" "monthly" (Some "DO_Sensor")
           _ _ _ _ ltac:(discriminate)
           ltac:(right; right; left; reflexivity)
           ltac:(right; right; left; reflexivity)
           (fun df x => ex_intro _ (Sample.Histogram df x) eq_refl)
           (fun df i y => ex_intro _ (Sample.Line df i y) eq_refl)
           L).
Defined.

Lemma table_view_shows_file_records_witness :
  exists rcols data cols,
    declared "KualaSG" "raw" = Ok rcols /\
    outcome (Sample.display Sample.fs 1 "KualaSG" "raw" "table" "daily" None)
    = Ok (Some (DataTable data cols)) /\
    shows_file_rows Sample.to_datetime_cell Sample.to_numeric_cell
                    "time" rcols Sample.kuala_raw_header Sample.kuala_raw_rows data.
Proof.
  assert (L : outcome (Sample.load Sample.fs "KualaSG") = Ok _)
    by (vm_compute; reflexivity).
  destruct (table_view_shows_file_records
              N N Sample.to_datetime_cell Sample.to_numeric_cell Sample.resample_mean
              Sample.Fig Sample.px_histogram Sample.px_line
              Sample.fs 1 "KualaSG" "daily" "D" None _ _
              Sample.kuala_raw_header Sample.kuala_raw_rows
              Sample.kuala_cleaned_header Sample.kuala_cleaned_rows _
              ltac:(discriminate) ltac:(left; reflexivity)
              eq_refl eq_refl eq_refl eq_refl
              ltac:(distinct_names) ltac:(distinct_names) eq_refl eq_refl L)
    as [(data & cols & E & S) _].
  eexists. exists data, cols. split; [reflexivity | ]. split; [exact E | exact S].
Defined.

Lemma parameter_options_match_loaded_columns_witness :
  exists raw cleaned opts,
    Sample.load Sample.fs "KualaSG"
    = ([Open "KualaSG_Raw.csv"; Open "KualaSG_Cleaned.csv"],
       resample_all N N Sample.resample_mean raw cleaned) /\
    update_parameter_options "KualaSG" "cleaned" = Ok opts /\
    Permutation (map value opts) (columns cleaned).
Proof.
  destruct (parameter_options_match_loaded_columns
              N N Sample.to_datetime_cell Sample.to_numeric_cell Sample.resample_mean
              Sample.fs "KualaSG" _ _
              Sample.kuala_raw_header Sample.kuala_raw_rows
              Sample.kuala_cleaned_header Sample.kuala_cleaned_rows
              eq_refl eq_refl eq_refl eq_refl
              ltac:(distinct_names) ltac:(distinct_names) eq_refl eq_refl)
    as (raw & cleaned & L & _ & _ & _ & P).
  exists raw, cleaned. eexists. split; [exact L | ].
  split; [reflexivity | ]. apply P. reflexivity.
Defined.

Lemma cleaned_options_are_raw_columns_witness :
  exists raw cleaned opts,
    Sample.load Sample.fs "KualaSG"
    = ([Open "KualaSG_Raw.csv"; Open "KualaSG_Cleaned.csv"],
       resample_all N N Sample.resample_mean raw cleaned) /\
    update_parameter_options "KualaSG" "cleaned" = Ok opts /\
    incl (map value opts) (columns raw).
Proof.
  destruct (cleaned_options_are_raw_columns
              N N Sample.to_datetime_cell Sample.to_numeric_cell Sample.resample_mean
              Sample.fs "KualaSG" _ _
              Sample.kuala_raw_header Sample.kuala_raw_rows
              Sample.kuala_cleaned_header Sample.kuala_cleaned_rows
              eq_refl eq_refl eq_refl eq_refl
              ltac:(distinct_names) ltac:(distinct_names) eq_refl eq_refl)
    as (raw & cleaned & L & P).
  exists raw, cleaned. eexists. split; [exact L | ].
  split; [reflexivity | ]. apply P. reflexivity.
Defined.

Lemma reset_index_after_set_index_witness :
  exists d flat,
    NoDup (columns Sample.small_frame) /\
    set_index N N "Timestamp" Sample.small_frame = Ok d /\
    reset_index N N d = Ok flat /\
    columns flat = ["Timestamp"; "PH_Sensor"] /\
    Permutation (columns flat) (columns Sample.small_frame) /\
    nrows flat = 2.
Proof.
  eexists.
  destruct (reset_index_after_set_index N N Sample.small_frame _ "Timestamp"
              ltac:(distinct_names) eq_refl)
    as (flat & R & C & P & _ & Nr & _).
  exists flat. split; [distinct_names | ]. split; [reflexivity | ].
  split; [exact R | ]. split; [exact C | ]. split; [exact P | exact Nr].
Defined.

Lemma coerce_numeric_keeps_shape_witness :
  NoDup (columns Sample.small_frame) /\
  exists df',
    coerce_numeric N N Sample.to_numeric_cell
                   (columns Sample.small_frame) Sample.small_frame = Ok df' /\
    columns df' = ["PH_Sensor"; "Timestamp"] /\
    lookup (columns_data df') "PH_Sensor"
    = Some (to_numeric N N Sample.to_numeric_cell [Num (Some 7%N); Num None]).
Proof.
  split; [distinct_names | ].
  destruct (coerce_numeric_keeps_shape N N Sample.to_numeric_cell Sample.small_frame
              ltac:(distinct_names))
    as (df' & R & _ & C & _ & Cells).
  exists df'. split; [exact R | ]. split; [exact C | ].
  apply Cells; [discriminate | reflexivity].
Defined.

Lemma module_init_binds_in_order_witness :
  (exists ev u raw cleaned,
      module_init N N Sample.to_datetime_cell Sample.to_numeric_cell
                  Sample.resample_mean Sample.fs = (ev, Ok u) /\
      df_raw N N u = Some raw /\ df_cleaned N N u = Some cleaned) /\
  (exists ev,
      module_init N N Sample.to_datetime_cell Sample.to_numeric_cell
                  Sample.resample_mean Sample.empty_fs = (ev, Raise unpack_error)).
Proof.
  split.
  - assert (L : Sample.load Sample.fs selected_river = (_, Ok (Some _ :: _)))
      by (vm_compute; reflexivity).
    destruct (proj1 (module_init_binds_in_order
                       N N Sample.to_datetime_cell Sample.to_numeric_cell
                       Sample.resample_mean Sample.fs _) _ _ L)
      as (u & cleaned & d & w & m & cd & cw & cm & I & A & B & _).
    do 2 eexists. eexists. exists cleaned. split; [exact I | ].
    split; [exact A | exact B].
  - eexists.
    apply (proj2 (module_init_binds_in_order
                    N N Sample.to_datetime_cell Sample.to_numeric_cell
                    Sample.resample_mean Sample.empty_fs _)).
    vm_compute. reflexivity.
Defined.
